(** * The Anthropic plugin of genkit-go-plugins: message and content translation

    A shallow embedding of [plugins/anthropic/claude.go] and theorems about
    it.  Go strings are byte strings and are modelled by [string] (a list of
    8-bit [ascii] characters); Go maps by stdpp's [gmap]; Go's [int] and
    [int64] by [Z] with the two's-complement wrap-around written out;
    [float64] by the kernel's binary64 floats.

    Layout: the Go standard-library pieces the plugin calls ([regexp],
    [encoding/json]), then the data types of the [ai] package and of the
    Anthropic SDK, then the plugin's functions, then the theorems. *)

From Stdlib Require Import ZArith Ascii String PrimFloat Lia.
From stdpp Require Import base option list gmap strings sorting pretty.

Set Default Proof Using "Type".
#[global] Set Warnings "-register-all".

Local Open Scope Z_scope.

(** stdpp freezes string concatenation under [simpl]; the proofs below
    compute with it. *)
#[local] Arguments String.append !s1 s2 : simpl nomatch.

(* ===================================================================== *)
(** * Go's [regexp] package, for the operators the plugin's pattern uses *)
(* ===================================================================== *)

Module regexp.

(** Go matches a pattern against the UTF-8 characters of the text.  The
    only characters the plugin's pattern tells apart are ASCII ([;],
    newline and the letters of its literals), and the byte of an ASCII
    character never occurs inside a multi-byte character, so the matcher
    below works on bytes and finds the same groups. *)

(** One-character items.  Without the [s] flag [.] matches every
    character except newline; a negated class [[^c]] matches every
    character but [c], newline included. *)
Inductive CharClass :=
| CcNot (c : ascii)
| CcAnyCharNotNL.

Definition newline : ascii := ascii_of_nat 10.

Definition accepts (cc : CharClass) (a : ascii) : bool :=
  match cc with
  | CcNot c => negb (Ascii.eqb a c)
  | CcAnyCharNotNL => negb (Ascii.eqb a newline)
  end.

(** Syntax trees.  [Plus] is the greedy [x+] over a one-character item,
    [Capture i r] the [i]-th parenthesised group, [BeginText] and
    [EndText] the anchors [^] and [$] (no [m] flag, so [$] matches at the
    end of the text only). *)
Inductive Regexp :=
| BeginText
| EndText
| Literal (s : string)
| Plus (cc : CharClass)
| Capture (i : nat) (r : Regexp)
| Concat (r1 r2 : Regexp).

(** Capture registers: group number to (start, end) byte offsets. *)
Definition Caps := gmap nat (nat * nat).

(** [strip_prefix p s] is the rest of [s] after the literal [p]. *)
Fixpoint strip_prefix (p s : string) : option string :=
  match p, s with
  | EmptyString, _ => Some s
  | String a p', String b s' => if Ascii.eqb a b then strip_prefix p' s' else None
  | String _ _, EmptyString => None
  end.

(** Backtracking matcher in continuation-passing style: [pos] is the
    offset reached, [s] the text from there on, [k] what remains to be
    matched.  The first success in priority order is returned, which is
    Go's leftmost-first rule.  The greedy [Plus] tries the longer run
    first and gives a character back when the rest fails. *)
Fixpoint plus_greedy (cc : CharClass) (pos : nat) (s : string) (caps : Caps)
    (k : nat -> string -> Caps -> option Caps) : option Caps :=
  match s with
  | EmptyString => None
  | String a s' =>
      if accepts cc a then
        match plus_greedy cc (S pos) s' caps k with
        | Some r => Some r
        | None => k (S pos) s' caps
        end
      else None
  end.

Fixpoint rmatch (r : Regexp) (pos : nat) (s : string) (caps : Caps)
    (k : nat -> string -> Caps -> option Caps) : option Caps :=
  match r with
  | BeginText => if Nat.eqb pos 0 then k pos s caps else None
  | EndText => match s with EmptyString => k pos s caps | String _ _ => None end
  | Literal p =>
      match strip_prefix p s with
      | Some s' => k (pos + String.length p)%nat s' caps
      | None => None
      end
  | Plus cc => plus_greedy cc pos s caps k
  | Capture i r' =>
      rmatch r' pos s caps (fun pos' s' caps' => k pos' s' (<[i := (pos, pos')]> caps'))
  | Concat r1 r2 =>
      rmatch r1 pos s caps (fun pos' s' caps' => rmatch r2 pos' s' caps' k)
  end.

(** A match attempt starting at offset [pos]; group 0 is the whole match. *)
Definition match_at (r : Regexp) (pos : nat) (s : string) : option Caps :=
  rmatch r pos s ∅ (fun pos' _ caps' => Some (<[0%nat := (pos, pos')]> caps')).

(** The leftmost match: start offsets are tried from left to right. *)
Fixpoint search (r : Regexp) (pos : nat) (s : string) : option Caps :=
  match match_at r pos s with
  | Some caps => Some caps
  | None =>
      match s with
      | EmptyString => None
      | String _ s' => search r (S pos) s'
      end
  end.

Fixpoint NumSubexp (r : Regexp) : nat :=
  match r with
  | Capture i r' => Nat.max i (NumSubexp r')
  | Concat r1 r2 => Nat.max (NumSubexp r1) (NumSubexp r2)
  | _ => 0%nat
  end.

Definition group_text (text : string) (caps : Caps) (i : nat) : string :=
  match caps !! i with
  | Some (b, e) => String.substring b (e - b) text
  | None => EmptyString
  end.

(** [re.FindStringSubmatch(text)]: [None] is Go's nil slice (no match);
    otherwise the text of the whole match and of every group. *)
Definition FindStringSubmatch (r : Regexp) (text : string) : option (list string) :=
  match search r 0 text with
  | Some caps => Some (group_text text caps <$> seq 0 (S (NumSubexp r)))
  | None => None
  end.

End regexp.

(* ===================================================================== *)
(** * Go string literals and [fmt.Sprintf] *)
(* ===================================================================== *)

Definition dquote : ascii := ascii_of_nat 34.
Definition squote : ascii := ascii_of_nat 39.

(** A Go literal that holds double quotes is written here with ['] in
    place of each double quote and read through [golit].  None of the
    plugin's literals holds a ['] of its own. *)
Fixpoint golit (s : string) : string :=
  match s with
  | EmptyString => EmptyString
  | String a s' => String (if Ascii.eqb a squote then dquote else a) (golit s')
  end.

Module fmt.

(** [fmt.Sprintf] for formats whose only verb is [%s] applied to string
    operands: each [%s] is replaced by the next operand, any other
    character is copied.  A verb without operand prints Go's
    [%!s(MISSING)]. *)
Fixpoint Sprintf (format : string) (args : list string) : string :=
  match format with
  | String "%" (String "s" rest) =>
      match args with
      | a :: args' => a +:+ Sprintf rest args'
      | [] => "%!s(MISSING)" +:+ Sprintf rest []
      end
  | String c rest => String c (Sprintf rest args)
  | EmptyString => EmptyString
  end.

End fmt.

(* ===================================================================== *)
(** * Go values of type [any] and [encoding/json] *)
(* ===================================================================== *)

(** The dynamic values a [map[string]any] of a tool call holds: the nil
    interface, booleans, integers, strings, slices and maps (both may be
    nil, written [None]), and [VFunc] for the kinds [encoding/json] refuses
    (functions, channels, complex numbers).  Floating-point numbers are not
    part of this model. *)
Inductive GoValue :=
| VNil
| VBool (b : bool)
| VInt (z : Z)
| VString (s : string)
| VSlice (l : option (list GoValue))
| VMap (m : option (gmap string GoValue))
| VFunc.

(** [map[string]any]; [None] is the nil map. *)
Definition GoMap := option (gmap string GoValue).

(** [m[key]] together with its comma-ok flag: indexing a nil map finds
    nothing. *)
Definition map_index (m : GoMap) (key : string) : option GoValue :=
  match m with
  | Some entries => entries !! key
  | None => None
  end.

(** The type assertion [v.(string)] on the value found by an index
    expression; a missing key yields the nil interface, which is no
    string. *)
Definition assert_string (v : option GoValue) : option string :=
  match v with
  | Some (VString s) => Some s
  | _ => None
  end.

Module json.

Definition byte (a : ascii) : Z := Z.of_N (N_of_ascii a).

Definition hex_digit (n : Z) : ascii :=
  match String.get (Z.to_nat n) "0123456789abcdef" with
  | Some c => c
  | None => "0"%char
  end.

Definition is_cont (b : option Z) : bool :=
  match b with
  | Some x => (0x80 <=? x) && (x <=? 0xBF)
  | None => false
  end.

Definition in_range (b : option Z) (lo hi : Z) : bool :=
  match b with
  | Some x => (lo <=? x) && (x <=? hi)
  | None => false
  end.

Definition byte_at (s : string) (i : nat) : option Z := byte <$> String.get i s.

(** [utf8.DecodeRuneInString] on a first byte [b0 >= 0x80] followed by
    [rest]: the width of a well-formed encoding, [None] for the
    [(RuneError, 1)] answer. *)
Definition rune_width (b0 : Z) (rest : string) : option nat :=
  let b1 := byte_at rest 0 in
  let b2 := byte_at rest 1 in
  let b3 := byte_at rest 2 in
  if (0xC2 <=? b0) && (b0 <=? 0xDF) then
    if is_cont b1 then Some 2%nat else None
  else if b0 =? 0xE0 then
    if in_range b1 0xA0 0xBF && is_cont b2 then Some 3%nat else None
  else if b0 =? 0xED then
    if in_range b1 0x80 0x9F && is_cont b2 then Some 3%nat else None
  else if (0xE1 <=? b0) && (b0 <=? 0xEF) then
    if is_cont b1 && is_cont b2 then Some 3%nat else None
  else if b0 =? 0xF0 then
    if in_range b1 0x90 0xBF && is_cont b2 && is_cont b3 then Some 4%nat else None
  else if (0xF1 <=? b0) && (b0 <=? 0xF3) then
    if is_cont b1 && is_cont b2 && is_cont b3 then Some 4%nat else None
  else if b0 =? 0xF4 then
    if in_range b1 0x80 0x8F && is_cont b2 && is_cont b3 then Some 4%nat else None
  else None.

(** The escape of one byte below [0x80], with HTML escaping, as
    [json.Marshal] has it (Go 1.22 and later, which write backspace and
    form feed as [\b] and [\f]). *)
Definition escape_ascii (a : ascii) : string :=
  let b := byte a in
  if (b =? 34) || (b =? 92) then String "\" (String a EmptyString)
  else if b =? 8 then "\b"
  else if b =? 12 then "\f"
  else if b =? 10 then "\n"
  else if b =? 13 then "\r"
  else if b =? 9 then "\t"
  else if (b <? 32) || (b =? 60) || (b =? 62) || (b =? 38) then
    "\u00" +:+ String (hex_digit (b / 16)) (String (hex_digit (b mod 16)) EmptyString)
  else String a EmptyString.

(** The body of a JSON string, byte by byte.  [copy] counts the bytes of
    a well-formed multi-byte character still to be copied, [skip] the
    bytes of a line or paragraph separator (U+2028, U+2029) already
    written as an escape. *)
Fixpoint escape (copy skip : nat) (s : string) : string :=
  match s with
  | EmptyString => EmptyString
  | String a s' =>
      match copy, skip with
      | S c, _ => String a (escape c skip s')
      | O, S k => escape O k s'
      | O, O =>
          let b := byte a in
          if b <? 0x80 then escape_ascii a +:+ escape 0 0 s'
          else
            match rune_width b s' with
            | None => "\ufffd" +:+ escape 0 0 s'
            | Some w =>
                if (b =? 0xE2) && in_range (byte_at s' 0) 0x80 0x80
                   && in_range (byte_at s' 1) 0xA8 0xA9
                then "\u202" +:+ String (hex_digit (default 0 (byte_at s' 1) mod 16))
                                   (escape 0 2 s')
                else String a (escape (w - 1) 0 s')
            end
      end
  end.

Definition quote (s : string) : string :=
  String dquote (escape 0 0 s) +:+ String dquote EmptyString.

(** Members of an object are written in the byte-wise order of their
    keys. *)
Definition key_le (x y : string * string) : Prop := String.leb x.1 y.1 = true.

#[global] Instance key_le_dec x y : Decision (key_le x y).
Proof. unfold key_le. apply _. Defined.

Fixpoint join (sep : string) (l : list string) : string :=
  match l with
  | [] => EmptyString
  | [x] => x
  | x :: r => x +:+ sep +:+ join sep r
  end.

Definition sequence_opt {A} (l : list (option A)) : option (list A) :=
  foldr (fun o acc => match o, acc with
                      | Some x, Some r => Some (x :: r)
                      | _, _ => None
                      end) (Some []) l.

Definition member (kv : string * string) : string :=
  quote kv.1 +:+ ":" +:+ kv.2.

Definition encoded_member (ko : string * option string) : option (string * string) :=
  match ko.2 with
  | Some v => Some (ko.1, v)
  | None => None
  end.

Definition object (members : list (string * option string)) : option string :=
  match sequence_opt (encoded_member <$> members) with
  | Some kvs => Some ("{" +:+ join "," (member <$> merge_sort key_le kvs) +:+ "}")
  | None => None
  end.

(** The encoding of a value; [None] is the [UnsupportedTypeError]. *)
Fixpoint encode (v : GoValue) : option string :=
  match v with
  | VNil => Some "null"
  | VBool b => Some (if b then "true" else "false")
  | VInt z => Some (pretty z)
  | VString s => Some (quote s)
  | VSlice None => Some "null"
  | VSlice (Some l) =>
      match sequence_opt (encode <$> l) with
      | Some items => Some ("[" +:+ join "," items +:+ "]")
      | None => None
      end
  | VMap None => Some "null"
  | VMap (Some m) => object (map_to_list (encode <$> m))
  | VFunc => None
  end.

(** [json.Marshal] of a [map[string]any]. *)
Definition Marshal (m : GoMap) : option string := encode (VMap m).

End json.

(* ===================================================================== *)
(** * Errors and outcomes *)
(* ===================================================================== *)

(** The plugin builds its errors with [fmt.Errorf]; each constructor stands
    for one format string and carries the values formatted into it. *)
Definition PartKind := Z.
Definition OutputFormat := string.
Definition Role := string.

Inductive error :=
| ErrUnsupportedOutputFormat (format supported : OutputFormat)
    (* "anthropic does not support %q output format, only %q is supported" *)
| ErrUnsupportedPartKind (kind : PartKind)
    (* "unsupported message part kind %q" *)
| ErrInvalidDataURL
    (* "invalid base64 data URL format" *)
| ErrUnsupportedRole (role : Role).
    (* "unsupported role %q" *)

(** Outcome of a Go function returning [(T, error)]: a value with a nil
    error, an error, or a run-time panic (nil pointer dereference). *)
Inductive result (A : Type) :=
| OK (a : A)
| Err (e : error)
| Panic.
Arguments OK {A} a.
Arguments Err {A} e.
Arguments Panic {A}.

(* ===================================================================== *)
(** * The plugin: data-URL extraction *)
(* ===================================================================== *)

(** [regexp.MustCompile(`^data:([^;]+);base64,(.+)$`)] *)
Definition dataURLPattern : regexp.Regexp :=
  regexp.Concat regexp.BeginText
   (regexp.Concat (regexp.Literal "data:")
    (regexp.Concat (regexp.Capture 1 (regexp.Plus (regexp.CcNot ";")))
     (regexp.Concat (regexp.Literal ";base64,")
      (regexp.Concat (regexp.Capture 2 (regexp.Plus regexp.CcAnyCharNotNL))
       regexp.EndText)))).

Definition extractDataFromBase64URL (url : string) : result (string * string) :=
  let re := dataURLPattern in
  match regexp.FindStringSubmatch re url with
  | None => Err ErrInvalidDataURL
  | Some matches => OK (matches !!! 2%nat, matches !!! 1%nat)
  end.

(* ===================================================================== *)
(** * Outcomes as a monad *)
(* ===================================================================== *)

#[global] Instance result_ret : MRet result := fun _ a => OK a.
#[global] Instance result_bind : MBind result := fun _ _ f r =>
  match r with
  | OK a => f a
  | Err e => Err e
  | Panic => Panic
  end.

(* ===================================================================== *)
(** * Machine integers *)
(* ===================================================================== *)

(** Two's-complement reading of the low [w] bits. *)
Definition wrap (w : Z) (z : Z) : Z := (z + 2 ^ (w - 1)) mod 2 ^ w - 2 ^ (w - 1).

Definition int64_min : Z := - 2 ^ 63.
Definition int64_max : Z := 2 ^ 63 - 1.
Definition is_int64 (z : Z) : Prop := int64_min <= z <= int64_max.

(** [a + b] on [int64] operands. *)
Definition int64_add (a b : Z) : Z := wrap 64 (a + b).

(** Go's [int] is 64 bits wide on the platforms modelled here; the
    conversions [int(x)] of an [int64] and [int64(x)] of an [int] keep the
    low 64 bits, so they keep every value that is in range. *)
Definition int_of_int64 (x : Z) : Z := wrap 64 x.
Definition int64_of_int (x : Z) : Z := wrap 64 x.
Definition int_add (a b : Z) : Z := wrap 64 (a + b).

(* ===================================================================== *)
(** * The [ai] package of genkit: the types the plugin reads and builds *)
(* ===================================================================== *)

Module ai.

(** [type Role string] *)
Definition RoleSystem : Role := "system".
Definition RoleUser : Role := "user".
Definition RoleModel : Role := "model".
Definition RoleTool : Role := "tool".

(** [type PartKind int8], an [iota] enumeration. *)
Definition PartText : PartKind := 0.
Definition PartMedia : PartKind := 1.
Definition PartData : PartKind := 2.
Definition PartToolRequest : PartKind := 3.
Definition PartToolResponse : PartKind := 4.

Record ToolRequest := {
  ToolRequest_Name : string;
  ToolRequest_Input : GoMap;
}.

Record ToolResponse := {
  ToolResponse_Name : string;
  ToolResponse_Output : GoMap;
}.

(** A content part: the kind selects which of the other fields are
    meaningful.  The two pointers are nil ([None]) in parts of the other
    kinds.  The slices of messages and of parts themselves hold non-nil
    pointers, and so are lists of records. *)
Record Part := {
  Kind : PartKind;
  ContentType : string;
  Text : string;
  ToolRequest_ : option ToolRequest;
  ToolResponse_ : option ToolResponse;
}.

Definition NewTextPart (text : string) : Part :=
  {| Kind := PartText; ContentType := "plain/text"; Text := text;
     ToolRequest_ := None; ToolResponse_ := None |}.

Record Message := {
  Content : list Part;
  Role_ : Role;
}.

(** [type OutputFormat string] *)
Definition OutputFormatJSON : OutputFormat := "json".
Definition OutputFormatText : OutputFormat := "text".
Definition OutputFormatMedia : OutputFormat := "media".

Record GenerateRequestOutput := {
  Format : OutputFormat;
  Schema : GoMap;
}.

Record ToolDefinition := {
  ToolDefinition_Name : string;
  ToolDefinition_Description : string;
  ToolDefinition_InputSchema : GoMap;
}.

Record GenerationCommonConfig := {
  MaxOutputTokens : Z;
  StopSequences : list string;
  Temperature : float;
  TopK : Z;
  TopP : float;
  Version : string;
}.

(** [type FinishReason string] *)
Definition FinishReason := string.
Definition FinishReasonStop : FinishReason := "stop".
Definition FinishReasonLength : FinishReason := "length".
Definition FinishReasonBlocked : FinishReason := "blocked".
Definition FinishReasonOther : FinishReason := "other".
Definition FinishReasonUnknown : FinishReason := "unknown".

Record Candidate := {
  FinishReason_ : FinishReason;
  Message_ : Message;
}.

Record GenerationUsage := {
  InputTokens : Z;
  OutputTokens : Z;
  TotalTokens : Z;
}.

End ai.

(* ===================================================================== *)
(** * The Anthropic SDK: request parameters and responses *)
(* ===================================================================== *)

Module anthropic.

(** [param.Field[T]]: the zero field (absent from the request), a value
    set with [F], or a raw value set with [Raw]. *)
Inductive Field (T : Type) :=
| Absent
| F (value : T)
| Raw (value : GoValue).
Arguments Absent {T}.
Arguments F {T} value.
Arguments Raw {T} value.

Record TextBlockParam := { TextBlockParam_Text : string }.

(** The content blocks of an outgoing message, as the SDK's constructors
    build them. *)
Inductive MessageParamContentUnion :=
| NewTextBlock (text : string)
| NewImageBlockBase64 (mediaType encodedData : string)
| NewToolUseBlockParam (id name : string) (input : GoMap)
| NewToolResultBlock (toolUseID content : string) (isError : bool).

(** [type MessageParamRole string] *)
Definition MessageParamRole := string.
Definition MessageParamRoleUser : MessageParamRole := "user".
Definition MessageParamRoleAssistant : MessageParamRole := "assistant".

Record MessageParam := {
  MessageParam_Role : MessageParamRole;
  MessageParam_Content : list MessageParamContentUnion;
}.

Record ToolParam := {
  ToolParam_Name : Field string;
  ToolParam_InputSchema : Field GoValue;
  ToolParam_Description : Field string;
}.

(** [ToolChoiceUnionParam] is an interface; [ToolChoiceNone] is its nil
    value. *)
Inductive ToolChoiceUnionParam :=
| ToolChoiceNone
| ToolChoiceAuto
| ToolChoiceAny
| ToolChoiceTool (name : string).

Record MetadataParam := { UserID : Field string }.

Record MessageNewParams := {
  MaxTokens : Field Z;
  Messages : Field (list MessageParam);
  Model : Field string;
  Metadata : Field MetadataParam;
  StopSequences : Field (list string);
  System : Field (list TextBlockParam);
  Temperature : Field float;
  ToolChoice : Field ToolChoiceUnionParam;
  Tools : Field (list ToolParam);
  TopK : Field Z;
  TopP : Field float;
}.

(** [anthropic.MessageNewParams{}] *)
Definition MessageNewParams_zero : MessageNewParams :=
  {| MaxTokens := Absent; Messages := Absent; Model := Absent; Metadata := Absent;
     StopSequences := Absent; System := Absent; Temperature := Absent;
     ToolChoice := Absent; Tools := Absent; TopK := Absent; TopP := Absent |}.

(** [type MessageStopReason string] *)
Definition MessageStopReason := string.
Definition MessageStopReasonEndTurn : MessageStopReason := "end_turn".
Definition MessageStopReasonMaxTokens : MessageStopReason := "max_tokens".
Definition MessageStopReasonStopSequence : MessageStopReason := "stop_sequence".
Definition MessageStopReasonToolUse : MessageStopReason := "tool_use".

Record ContentBlock := {
  ContentBlock_Type : string;
  ContentBlock_Text : string;
}.

Record Usage := {
  InputTokens : Z;
  OutputTokens : Z;
}.

Record Message := {
  Content : list ContentBlock;
  StopReason : MessageStopReason;
  Usage_ : Usage;
}.

End anthropic.

Import anthropic(Field, Absent, F, Raw).

(* ===================================================================== *)
(** * The plugin: requests *)
(* ===================================================================== *)

(** [GenerationAnthropicConfig] embeds the common configuration and adds
    the tool-choice policy and the request metadata. *)
Record GenerationAnthropicConfig := {
  GenerationCommonConfig_ : ai.GenerationCommonConfig;
  ToolChoiceParam : anthropic.ToolChoiceUnionParam;
  Metadata : anthropic.MetadataParam;
}.

(** The [Config any] field of a request holds one dynamic value: the nil
    interface, a pointer to a common configuration, a pointer to the
    plugin's configuration (either pointer may be nil, [None]), or a value
    of some other type. *)
Inductive ConfigValue :=
| ConfigNil
| ConfigCommon (c : option ai.GenerationCommonConfig)
| ConfigAnthropic (c : option GenerationAnthropicConfig)
| ConfigOther (v : GoValue).

(** The type assertion of [cfg] to a pointer to [ai.GenerationCommonConfig],
    together with the test [ok && c != nil] that follows it. *)
Definition asCommonConfig (cfg : ConfigValue) : option ai.GenerationCommonConfig :=
  match cfg with
  | ConfigCommon (Some c) => Some c
  | _ => None
  end.

(** The type assertion of [cfg] to a pointer to [GenerationAnthropicConfig],
    together with the test [ok && c != nil] that follows it. *)
Definition asAnthropicConfig (cfg : ConfigValue) : option GenerationAnthropicConfig :=
  match cfg with
  | ConfigAnthropic (Some c) => Some c
  | _ => None
  end.

(** [ai.GenerateRequest], with the fields the plugin reads.  The slices
    of messages and of tool definitions hold non-nil pointers, and so are
    lists of records. *)
Record GenerateRequest := {
  Config : ConfigValue;
  Messages : list ai.Message;
  Output : option ai.GenerateRequestOutput;
  Tools : list ai.ToolDefinition;
}.

(** [ai.GenerateResponse], with the fields the plugin sets. *)
Record GenerateResponse := {
  Candidates : list ai.Candidate;
  Request : option GenerateRequest;
  Usage : option ai.GenerationUsage;
}.

Definition image_format : string :=
  golit "{'type':'image','source':{'type':'base64','data':'%s','media_type':'%s'}}".

Definition text_format : string :=
  golit "{'type':'text','text':%s}".

Definition convertToolResponse (response : ai.ToolResponse) : string :=
  let output := ai.ToolResponse_Output response in
  let image :=
    match assert_string (map_index output "url") with
    | Some url =>
        match extractDataFromBase64URL url with
        | OK (base64Data, contentType) =>
            let contentType :=
              match assert_string (map_index output "contentType") with
              | Some mediaContentType => mediaContentType
              | None => contentType
              end in
            Some (fmt.Sprintf image_format [base64Data; contentType])
        | _ => None
        end
    | None => None
    end in
  match image with
  | Some block => block
  | None =>
      (* Handle other output types by JSON stringifying *)
      match json.Marshal output with
      | Some bytes => fmt.Sprintf text_format [bytes]
      | None => EmptyString
      end
  end.

(** One turn of the inner loop of [convertMessages]: the block the [switch]
    appends to [content] for [part]. *)
Definition convertPart (part : ai.Part) : result anthropic.MessageParamContentUnion :=
  let kind := ai.Kind part in
  if kind =? ai.PartText then
    OK (anthropic.NewTextBlock (ai.Text part))
  else if kind =? ai.PartMedia then
    OK (anthropic.NewImageBlockBase64 (ai.ContentType part) (ai.Text part))
  else if kind =? ai.PartToolRequest then
    match ai.ToolRequest_ part with
    | Some req =>
        OK (anthropic.NewToolUseBlockParam
              (ai.ToolRequest_Name req) (ai.ToolRequest_Name req) (ai.ToolRequest_Input req))
    | None => Panic
    end
  else if kind =? ai.PartToolResponse then
    match ai.ToolResponse_ part with
    | Some resp =>
        OK (anthropic.NewToolResultBlock
              (ai.ToolResponse_Name resp) (convertToolResponse resp) false)
    | None => Panic
    end
  else Err (ErrUnsupportedPartKind kind).

(** The inner loop: [content] grows by one block per part. *)
Fixpoint convertParts (parts : list ai.Part) (content : list anthropic.MessageParamContentUnion)
    : result (list anthropic.MessageParamContentUnion) :=
  match parts with
  | [] => OK content
  | part :: parts' =>
      block ← convertPart part;
      convertParts parts' (content ++ [block])
  end.

(** The outer loop: the body builds [content] for the message and ends
    there, so [system] and [user] reach the next turn as they were. *)
Fixpoint convertMessagesLoop (messages : list ai.Message)
    (system : list anthropic.TextBlockParam) (user : list anthropic.MessageParam)
    : result (list anthropic.TextBlockParam * list anthropic.MessageParam) :=
  match messages with
  | [] => OK (system, user)
  | msg :: messages' =>
      content ← convertParts (ai.Content msg) [];
      convertMessagesLoop messages' system user
  end.

Definition convertMessages (messages : list ai.Message)
    : result (list anthropic.TextBlockParam * list anthropic.MessageParam) :=
  let system := [] in
  let user := [] in
  convertMessagesLoop messages system user.

Definition convertTools (tools : list ai.ToolDefinition) : result (list anthropic.ToolParam) :=
  OK (foldl (fun res t =>
               res ++ [ {| anthropic.ToolParam_Name := F (ai.ToolDefinition_Name t);
                           anthropic.ToolParam_InputSchema :=
                             Raw (VMap (ai.ToolDefinition_InputSchema t));
                           anthropic.ToolParam_Description :=
                             F (ai.ToolDefinition_Description t) |} ])
            [] tools).

Definition convertRole (role : Role) : result anthropic.MessageParamRole :=
  if String.eqb role ai.RoleUser then OK anthropic.MessageParamRoleUser
  else if String.eqb role ai.RoleSystem then OK anthropic.MessageParamRoleAssistant
  else if String.eqb role ai.RoleModel then OK anthropic.MessageParamRoleAssistant
  else Err (ErrUnsupportedRole role).

(** The two configuration blocks of [convertRequest]. *)
Definition setCommonConfig (c : ai.GenerationCommonConfig) (params : anthropic.MessageNewParams)
    : anthropic.MessageNewParams :=
  {| anthropic.MaxTokens := F (int64_of_int (ai.MaxOutputTokens c));
     anthropic.TopK := F (int64_of_int (ai.TopK c));
     anthropic.TopP := F (ai.TopP c);
     anthropic.Temperature := F (ai.Temperature c);
     anthropic.StopSequences := F (ai.StopSequences c);
     anthropic.System := anthropic.System params;
     anthropic.Model := anthropic.Model params;
     anthropic.Messages := anthropic.Messages params;
     anthropic.Tools := anthropic.Tools params;
     anthropic.ToolChoice := anthropic.ToolChoice params;
     anthropic.Metadata := anthropic.Metadata params |}.

Definition setAnthropicConfig (c : GenerationAnthropicConfig) (params : anthropic.MessageNewParams)
    : anthropic.MessageNewParams :=
  let common := GenerationCommonConfig_ c in
  {| anthropic.MaxTokens := F (int64_of_int (ai.MaxOutputTokens common));
     anthropic.TopK := F (int64_of_int (ai.TopK common));
     anthropic.TopP := F (ai.TopP common);
     anthropic.Temperature := F (ai.Temperature common);
     anthropic.StopSequences := F (ai.StopSequences common);
     anthropic.ToolChoice := F (ToolChoiceParam c);
     anthropic.Metadata := F (Metadata c);
     anthropic.System := anthropic.System params;
     anthropic.Model := anthropic.Model params;
     anthropic.Messages := anthropic.Messages params;
     anthropic.Tools := anthropic.Tools params |}.

Definition convertRequest (model : string) (input : GenerateRequest)
    : result anthropic.MessageNewParams :=
  match Output input with
  | Some output =>
      if negb (String.eqb (ai.Format output) ai.OutputFormatText) then
        Err (ErrUnsupportedOutputFormat (ai.Format output) ai.OutputFormatText)
      else OK ()
  | None => OK ()
  end ≫= fun _ =>
  '(system, messages) ← convertMessages (Messages input);
  tools ← convertTools (Tools input);
  let params :=
    {| anthropic.System := F system;
       anthropic.Model := F model;
       anthropic.Messages := F messages;
       anthropic.Tools := F tools;
       anthropic.MaxTokens := Absent; anthropic.Metadata := Absent;
       anthropic.StopSequences := Absent; anthropic.Temperature := Absent;
       anthropic.ToolChoice := Absent; anthropic.TopK := Absent;
       anthropic.TopP := Absent |} in
  let params :=
    match asCommonConfig (Config input) with
    | Some c => setCommonConfig c params
    | None => params
    end in
  let params :=
    match asAnthropicConfig (Config input) with
    | Some c => setAnthropicConfig c params
    | None => params
    end in
  OK params.

(* ===================================================================== *)
(** * The plugin: responses *)
(* ===================================================================== *)

Definition translateCandidate (c : anthropic.ContentBlock)
    (stopReason : anthropic.MessageStopReason) : ai.Candidate :=
  let finishReason :=
    if String.eqb stopReason anthropic.MessageStopReasonEndTurn then ai.FinishReasonStop
    else if String.eqb stopReason anthropic.MessageStopReasonMaxTokens then ai.FinishReasonLength
    else if String.eqb stopReason anthropic.MessageStopReasonStopSequence then ai.FinishReasonOther
    else if String.eqb stopReason anthropic.MessageStopReasonToolUse then ai.FinishReasonOther
    else ai.FinishReasonUnknown in
  let m := {| ai.Role_ := ai.RoleModel;
              ai.Content := [] ++ [ai.NewTextPart (anthropic.ContentBlock_Text c)] |} in
  {| ai.FinishReason_ := finishReason; ai.Message_ := m |}.

Definition translateResponse (res : anthropic.Message) : GenerateResponse :=
  let candidates :=
    foldl (fun cs c => cs ++ [translateCandidate c (anthropic.StopReason res)])
          [] (anthropic.Content res) in
  let usage := anthropic.Usage_ res in
  {| Candidates := candidates;
     Request := None;
     Usage := Some {| ai.InputTokens := int_of_int64 (anthropic.InputTokens usage);
                      ai.OutputTokens := int_of_int64 (anthropic.OutputTokens usage);
                      ai.TotalTokens :=
                        int_of_int64 (int64_add (anthropic.InputTokens usage)
                                                (anthropic.OutputTokens usage)) |} |}.

(* ===================================================================== *)
(** * The plugin: model invocation *)
(* ===================================================================== *)

(** The SDK client, as [anthropic.NewClient(option.WithAPIKey(apiKey))]
    builds it. *)
Record Client := { ClientAPIKey : string }.

(** What [client.Messages.New(ctx, req)] comes back with: a message, or an
    error of the transport's own. *)
Inductive TransportOutcome :=
| Answer (res : anthropic.Message)
| Failure (reason : string).

(** The error [generate] returns is the one of the request assembly or
    the one of the transport, each passed on as it is. *)
Inductive InvocationError :=
| ConversionError (e : error)
| TransportError (reason : string).

Inductive Invocation :=
| Returned (r : GenerateResponse)
| Failed (e : InvocationError)
| Panicked.

(** [generate], with the provider behind the client as the function
    [send].  The first component of the result lists the calls of
    [client.Messages.New] in the order they are made.  The context is only
    passed on and the streaming callback [cb] is never used, so neither is
    a parameter here.  A nil [client] is [None]. *)
Definition generate (send : Client -> anthropic.MessageNewParams -> TransportOutcome)
    (client : option Client) (model : string) (input : GenerateRequest)
    : list (Client * anthropic.MessageNewParams) * Invocation :=
  match convertRequest model input with
  | Err e => ([], Failed (ConversionError e))
  | Panic => ([], Panicked)
  | OK req =>
      match client with
      | None => ([], Panicked)
      | Some c =>
          match send c req with
          | Failure reason => ([(c, req)], Failed (TransportError reason))
          | Answer res =>
              let r := translateResponse res in
              ([(c, req)],
               Returned {| Candidates := Candidates r;
                           Request := Some input;
                           Usage := Usage r |})
          end
      end
  end.

(* ===================================================================== *)
(** * The plugin: initialization and model registration *)
(* ===================================================================== *)

Module setup.

Definition provider : string := "anthropic".
Definition labelPrefix : string := "Anthropic".
Definition apiKeyEnv : string := "ANTHROPIC_API_KEY".

(** [ai.ModelCapabilities], with the fields the plugin sets. *)
Record ModelCapabilities := {
  Multiturn : bool;
  Tools : bool;
  SystemRole : bool;
  Media : bool;
}.

(** Multimodal describes model capabilities for multimodal Claude models. *)
Definition Multimodal : ModelCapabilities :=
  {| Multiturn := true; Tools := true; SystemRole := true; Media := true |}.

(** [ai.ModelMetadata] *)
Record ModelMetadata := {
  Label : string;
  Supports : ModelCapabilities;
}.

(** The package variable [state]; its mutex serializes [Init] and
    [DefineModel] and has no part in what one call computes. *)
Record State := {
  initted : bool;
  client : option Client;
}.

(** The model names of the SDK that [knownCaps] lists. *)
Definition ModelClaude3_5Haiku20241022 : string := "claude-3-5-haiku-20241022".
Definition ModelClaude3_5Sonnet20241022 : string := "claude-3-5-sonnet-20241022".
Definition ModelClaude_3_Haiku_20240307 : string := "claude-3-haiku-20240307".
Definition ModelClaude_3_Sonnet_20240229 : string := "claude-3-sonnet-20240229".
Definition ModelClaude_3_Opus_20240229 : string := "claude-3-opus-20240229".

Definition knownCaps : gmap string ModelCapabilities :=
  list_to_map [ (ModelClaude3_5Haiku20241022, Multimodal);
                (ModelClaude3_5Sonnet20241022, Multimodal);
                (ModelClaude_3_Haiku_20240307, Multimodal);
                (ModelClaude_3_Sonnet_20240229, Multimodal);
                (ModelClaude_3_Opus_20240229, Multimodal) ].

Record Config := { APIKey : string }.

(** One call [ai.DefineModel(provider, name, meta, fn)]; the function
    registered is the closure over [name] that calls [generate]. *)
Record Registration := {
  reg_provider : string;
  reg_name : string;
  reg_meta : ModelMetadata;
}.

Inductive SetupError :=
| ErrMissingAPIKey (envVar : string)
    (* "Anthropic requires setting %s in the environment. ..." *)
| ErrUnknownModel (prov name : string).
    (* "%s.DefineModel: called with unknown model %q and nil ModelCapabilities" *)

(** How a call ends: a normal return, an error, a panic of the plugin
    with its message, or a panic raised inside [ai.DefineModel]. *)
Inductive Outcome (A : Type) :=
| Done (a : A)
| Refused (e : SetupError)
| PluginPanic (message : string)
| RegistryPanic.
Arguments Done {A} a.
Arguments Refused {A} e.
Arguments PluginPanic {A} message.
Arguments RegistryPanic {A}.

Section Registry.

(** The model registry of genkit is not the plugin's: it is a state
    [Registry] on which a call of [ai.DefineModel] either returns, giving
    the next state, or panics ([None]). *)
Context {Registry : Type}.
Variable register : Registration -> Registry -> option Registry.

Definition defineModel (name : string) (caps : ModelCapabilities) (reg : Registry)
    : option Registry :=
  let meta := {| Label := labelPrefix +:+ " - " +:+ name; Supports := caps |} in
  register {| reg_provider := provider; reg_name := name; reg_meta := meta |} reg.

(** The loop [for model, caps := range knownCaps] over the entries in
    the order [entries] in which the map yields them; the registry
    reached, and whether every call returned. *)
Fixpoint defineKnown (entries : list (string * ModelCapabilities)) (reg : Registry)
    : Registry * bool :=
  match entries with
  | [] => (reg, true)
  | (model, caps) :: entries' =>
      match defineModel model caps reg with
      | Some reg' => defineKnown entries' reg'
      | None => (reg, false)
      end
  end.

(** [Init].  [getenv] is [os.Getenv]; [order] is the sequence in which
    [range knownCaps] yields the entries of the map (some permutation of
    them); a nil [cfg] is [None]. *)
Definition Init (getenv : string -> string) (order : list (string * ModelCapabilities))
    (st : State) (reg : Registry) (cfg : option Config)
    : State * Registry * Outcome unit :=
  let cfg := match cfg with Some c => c | None => {| APIKey := EmptyString |} end in
  if initted st then (st, reg, PluginPanic (provider +:+ ".Init not called"))
  else
    let apiKey := APIKey cfg in
    let apiKey := if String.eqb apiKey EmptyString then getenv apiKeyEnv else apiKey in
    if String.eqb apiKey EmptyString then (st, reg, Refused (ErrMissingAPIKey apiKeyEnv))
    else
      let client := {| ClientAPIKey := apiKey |} in
      let st := {| initted := true; client := Some client |} in
      match defineKnown order reg with
      | (reg', true) => (st, reg', Done ())
      | (reg', false) => (st, reg', RegistryPanic)
      end.

(** [DefineModel]; a nil [caps] is [None].  The model handle returned is
    the one of [ai.DefineModel] and stands for the name registered. *)
Definition DefineModel (st : State) (reg : Registry) (name : string)
    (caps : option ModelCapabilities) : Registry * Outcome string :=
  if negb (initted st) then (reg, PluginPanic (provider +:+ ".Init not called"))
  else
    let mc :=
      match caps with
      | None => knownCaps !! name
      | Some c => Some c
      end in
    match mc with
    | None => (reg, Refused (ErrUnknownModel provider name))
    | Some mc =>
        match defineModel name mc reg with
        | Some reg' => (reg', Done name)
        | None => (reg, RegistryPanic)
        end
    end.

End Registry.

End setup.

(* ===================================================================== *)
(** * Vocabulary of the statements *)
(* ===================================================================== *)

(** [occurs c s]: the character [c] is one of the characters of [s]. *)
Fixpoint occurs (c : ascii) (s : string) : bool :=
  match s with
  | EmptyString => false
  | String a s' => Ascii.eqb a c || occurs c s'
  end.

(** [run cc s] splits [s] into its longest prefix of characters that [cc]
    accepts and the rest. *)
Fixpoint run (cc : regexp.CharClass) (s : string) : string * string :=
  match s with
  | EmptyString => (EmptyString, EmptyString)
  | String a s' =>
      if regexp.accepts cc a then (String a (run cc s').1, (run cc s').2)
      else (EmptyString, s)
  end.

(** The strings the pattern of [extractDataFromBase64URL] describes:
    [data:], a media type of one or more characters other than [;], then
    [;base64,], then a payload of one or more characters other than
    newline, up to the end. *)
Definition is_data_url (url mediaType payload : string) : Prop :=
  url = "data:" +:+ mediaType +:+ ";base64," +:+ payload
  /\ mediaType <> EmptyString /\ occurs ";" mediaType = false
  /\ payload <> EmptyString /\ occurs regexp.newline payload = false.

(** The same reading as a function: what the pattern finds in [url]. *)
Definition split_data_url (url : string) : option (string * string) :=
  match regexp.strip_prefix "data:" url with
  | None => None
  | Some s1 =>
      let (mediaType, s2) := run (regexp.CcNot ";") s1 in
      match mediaType, regexp.strip_prefix ";base64," s2 with
      | String _ _, Some s3 =>
          match run regexp.CcAnyCharNotNL s3 with
          | (String a p, EmptyString) => Some (String a p, mediaType)
          | _ => None
          end
      | _, _ => None
      end
  end.

(** What follows a run does not start with an accepted character. *)
Definition stops (cc : regexp.CharClass) (s : string) : Prop :=
  match s with
  | EmptyString => True
  | String a _ => regexp.accepts cc a = false
  end.

Fixpoint all_accepted (cc : regexp.CharClass) (s : string) : bool :=
  match s with
  | EmptyString => true
  | String a s' => regexp.accepts cc a && all_accepted cc s'
  end.

(** The continuations of the matcher on [dataURLPattern], for a match
    attempt at offset 0: what is left to match after the payload group and
    after the media-type group. *)
Definition after_payload (pos : nat) (s : string) (caps : regexp.Caps) : option regexp.Caps :=
  regexp.rmatch regexp.EndText pos s caps
    (fun pos' _ caps' => Some (<[0%nat := (0%nat, pos')]> caps')).

Definition after_media_type (pos : nat) (s : string) (caps : regexp.Caps)
    : option regexp.Caps :=
  match regexp.strip_prefix ";base64," s with
  | None => None
  | Some s3 =>
      regexp.plus_greedy regexp.CcAnyCharNotNL (pos + 8) s3 caps
        (fun pos' s' caps' => after_payload pos' s' (<[2%nat := ((pos + 8)%nat, pos')]> caps'))
  end.

(** The registers of a successful match. *)
Definition data_url_caps (mediaType payload : string) : regexp.Caps :=
  let e1 := (5 + String.length mediaType)%nat in
  let b2 := (e1 + 8)%nat in
  let e2 := (b2 + String.length payload)%nat in
  <[0%nat := (0%nat, e2)]> (<[2%nat := (b2, e2)]> (<[1%nat := (5%nat, e1)]> ∅)).

(** The tool response [{"result": 42}] and the two image responses of the
    specification's examples. *)
Definition result42 : ai.ToolResponse :=
  {| ai.ToolResponse_Name := "calc";
     ai.ToolResponse_Output := Some {[ "result" := VInt 42 ]} |}.

Definition png_url : string := "data:image/png;base64,AAA=".

Definition png_response : ai.ToolResponse :=
  {| ai.ToolResponse_Name := "draw";
     ai.ToolResponse_Output := Some {[ "url" := VString png_url ]} |}.

Definition png_as_jpeg_response : ai.ToolResponse :=
  {| ai.ToolResponse_Name := "draw";
     ai.ToolResponse_Output :=
       Some {[ "url" := VString png_url; "contentType" := VString "image/jpeg" ]} |}.

(** [image_block data mediaType] is the text
    [{"type":"image","source":{"type":"base64","data":"<data>","media_type":"<mediaType>"}}]. *)
Definition image_block (data mediaType : string) : string :=
  golit "{'type':'image','source':{'type':'base64','data':'" +:+ data
  +:+ golit "','media_type':'" +:+ mediaType +:+ golit "'}}".

(** [text_block json] is the text [{"type":"text","text":<json>}], with
    [json] copied as it is. *)
Definition text_block (json : string) : string :=
  golit "{'type':'text','text':" +:+ json +:+ "}".

(** A message of the given role whose parts are all text. *)
Definition text_message (turn : Role * list string) : ai.Message :=
  {| ai.Content := ai.NewTextPart <$> turn.2; ai.Role_ := turn.1 |}.

(** The kinds the [switch] of [convertMessages] has a case for. *)
Definition supported (kind : PartKind) : bool :=
  (kind =? ai.PartText) || (kind =? ai.PartMedia)
  || (kind =? ai.PartToolRequest) || (kind =? ai.PartToolResponse).

(** The invariant of a content part: a tool-request part carries its
    request and a tool-response part its response. *)
Definition well_formed (part : ai.Part) : Prop :=
  (ai.Kind part = ai.PartToolRequest -> is_Some (ai.ToolRequest_ part))
  /\ (ai.Kind part = ai.PartToolResponse -> is_Some (ai.ToolResponse_ part)).

(** The parts of a conversation, in the order the loops visit them. *)
Definition all_parts (messages : list ai.Message) : list ai.Part :=
  messages ≫= ai.Content.

(** The first part the [switch] has no case for. *)
Definition first_unsupported (parts : list ai.Part) : option ai.Part :=
  List.find (fun part => negb (supported (ai.Kind part))) parts.

Definition data_part : ai.Part :=
  {| ai.Kind := ai.PartData; ai.ContentType := "application/json"; ai.Text := "{}";
     ai.ToolRequest_ := None; ai.ToolResponse_ := None |}.

Definition hello : list ai.Message := [ text_message (ai.RoleUser, ["hi"]) ].

(** A message with a text part followed by a part of kind data. *)
Definition text_then_data : list ai.Message :=
  [ {| ai.Content := [ai.NewTextPart "see"; data_part]; ai.Role_ := ai.RoleUser |} ].

(** The configurations of the specification's example: a common
    configuration with temperature 0.5, and a plugin configuration with
    temperature 0.9 (the binary64 value nearest to it) and a tool-choice
    policy. *)
Definition common_half : ai.GenerationCommonConfig :=
  {| ai.MaxOutputTokens := 1024; ai.StopSequences := ["END"];
     ai.Temperature := 0.5%float; ai.TopK := 40; ai.TopP := 0.75%float;
     ai.Version := EmptyString |}.

Definition specific_nine_tenths : GenerationAnthropicConfig :=
  {| GenerationCommonConfig_ :=
       {| ai.MaxOutputTokens := 2048; ai.StopSequences := [];
          ai.Temperature := 0x1.ccccccccccccdp-1%float; ai.TopK := 5;
          ai.TopP := 0.25%float; ai.Version := EmptyString |};
     ToolChoiceParam := anthropic.ToolChoiceAny;
     Metadata := {| anthropic.UserID := F "user-1" |} |}.

Definition request_with (cfg : ConfigValue) (output : option ai.GenerateRequestOutput)
    (messages : list ai.Message) : GenerateRequest :=
  {| Config := cfg; Messages := messages; Output := output; Tools := [] |}.

Definition json_output : ai.GenerateRequestOutput :=
  {| ai.Format := ai.OutputFormatJSON; ai.Schema := None |}.

(** The request assembly once the output format has been accepted. *)
Definition assemble (model : string) (input : GenerateRequest)
    : result anthropic.MessageNewParams :=
  OK () ≫= fun _ =>
  '(system, messages) ← convertMessages (Messages input);
  tools ← convertTools (Tools input);
  let params :=
    {| anthropic.System := F system;
       anthropic.Model := F model;
       anthropic.Messages := F messages;
       anthropic.Tools := F tools;
       anthropic.MaxTokens := Absent; anthropic.Metadata := Absent;
       anthropic.StopSequences := Absent; anthropic.Temperature := Absent;
       anthropic.ToolChoice := Absent; anthropic.TopK := Absent;
       anthropic.TopP := Absent |} in
  let params :=
    match asCommonConfig (Config input) with
    | Some c => setCommonConfig c params
    | None => params
    end in
  let params :=
    match asAnthropicConfig (Config input) with
    | Some c => setAnthropicConfig c params
    | None => params
    end in
  OK params.

(** A response whose token counters add up to more than an [int64]
    holds. *)
Definition overflowing_response : anthropic.Message :=
  {| anthropic.Content := [];
     anthropic.StopReason := anthropic.MessageStopReasonEndTurn;
     anthropic.Usage_ := {| anthropic.InputTokens := 9223372036854775807;
                            anthropic.OutputTokens := 1 |} |}.

Definition small_response : anthropic.Message :=
  {| anthropic.Content := [ {| anthropic.ContentBlock_Type := "text";
                               anthropic.ContentBlock_Text := "Hello" |} ];
     anthropic.StopReason := anthropic.MessageStopReasonMaxTokens;
     anthropic.Usage_ := {| anthropic.InputTokens := 12; anthropic.OutputTokens := 30 |} |}.

(** The tool parameter that [convertTools] appends for one definition. *)
Definition tool_param (t : ai.ToolDefinition) : anthropic.ToolParam :=
  {| anthropic.ToolParam_Name := F (ai.ToolDefinition_Name t);
     anthropic.ToolParam_InputSchema := Raw (VMap (ai.ToolDefinition_InputSchema t));
     anthropic.ToolParam_Description := F (ai.ToolDefinition_Description t) |}.

(** A tool part whose payload pointer is nil. *)
Definition missing_payload (part : ai.Part) : bool :=
  ((ai.Kind part =? ai.PartToolRequest) && bool_decide (ai.ToolRequest_ part = None))
  || ((ai.Kind part =? ai.PartToolResponse) && bool_decide (ai.ToolResponse_ part = None)).

(** The parts at which the inner loop of [convertMessages] stops. *)
Definition offending (part : ai.Part) : bool :=
  negb (supported (ai.Kind part)) || missing_payload part.

(** The output format is acceptable: there is no output specification,
    or it asks for plain text. *)
Definition format_accepted (input : GenerateRequest) : Prop :=
  match Output input with
  | Some output => ai.Format output = ai.OutputFormatText
  | None => True
  end.

(** The request that [convertRequest] assembles once the format has been
    accepted and the messages have been converted. *)
Definition configured (model : string) (input : GenerateRequest)
    (tools : list anthropic.ToolParam) : anthropic.MessageNewParams :=
  let params :=
    {| anthropic.System := F [];
       anthropic.Model := F model;
       anthropic.Messages := F [];
       anthropic.Tools := F tools;
       anthropic.MaxTokens := Absent; anthropic.Metadata := Absent;
       anthropic.StopSequences := Absent; anthropic.Temperature := Absent;
       anthropic.ToolChoice := Absent; anthropic.TopK := Absent;
       anthropic.TopP := Absent |} in
  let params :=
    match asCommonConfig (Config input) with
    | Some c => setCommonConfig c params
    | None => params
    end in
  match asAnthropicConfig (Config input) with
  | Some c => setAnthropicConfig c params
  | None => params
  end.

Definition weather_tool : ai.ToolDefinition :=
  {| ai.ToolDefinition_Name := "weather";
     ai.ToolDefinition_Description := "Looks up the weather";
     ai.ToolDefinition_InputSchema := Some {[ "type" := VString "object" ]} |}.

Definition text_output : ai.GenerateRequestOutput :=
  {| ai.Format := ai.OutputFormatText; ai.Schema := None |}.

(** A tool-request part that carries no request. *)
Definition hollow_request : ai.Part :=
  {| ai.Kind := ai.PartToolRequest; ai.ContentType := EmptyString; ai.Text := EmptyString;
     ai.ToolRequest_ := None; ai.ToolResponse_ := None |}.

Definition text_then_hollow : list ai.Message :=
  [ {| ai.Content := [ai.NewTextPart "call"; hollow_request; data_part];
       ai.Role_ := ai.RoleModel |} ].

(** A provider that answers every request with [small_response], and one
    that fails every request. *)
Definition answering : Client -> anthropic.MessageNewParams -> TransportOutcome :=
  fun _ _ => Answer small_response.

Definition failing : Client -> anthropic.MessageNewParams -> TransportOutcome :=
  fun _ _ => Failure "503 Service Unavailable".

Definition some_client : Client := {| ClientAPIKey := "sk-test" |}.

(** A registry that records the calls made to it and lets each return. *)
Definition recording (r : setup.Registration) (log : list setup.Registration)
    : option (list setup.Registration) :=
  Some (log ++ [r]).

(** A registry that panics on a name it already holds. *)
Definition refusing_twice (r : setup.Registration) (seen : list string)
    : option (list string) :=
  if bool_decide (setup.reg_name r ∈ seen) then None else Some (setup.reg_name r :: seen).

(** The registration [defineModel] asks for. *)
Definition registration_of (entry : string * setup.ModelCapabilities) : setup.Registration :=
  {| setup.reg_provider := setup.provider;
     setup.reg_name := entry.1;
     setup.reg_meta := {| setup.Label := "Anthropic - " +:+ entry.1;
                          setup.Supports := entry.2 |} |}.

Definition fresh : setup.State := {| setup.initted := false; setup.client := None |}.

Definition ready (key : string) : setup.State :=
  {| setup.initted := true; setup.client := Some {| ClientAPIKey := key |} |}.

Definition no_env : string -> string := fun _ => EmptyString.

Definition env_key (key : string) : string -> string :=
  fun name => if String.eqb name setup.apiKeyEnv then key else EmptyString.

(** The key [Init] settles on: the one of the configuration, and the one
    of the environment when the configuration has none. *)
Definition chosen_key (getenv : string -> string) (cfg : option setup.Config) : string :=
  match cfg with
  | Some c => if String.eqb (setup.APIKey c) EmptyString then getenv setup.apiKeyEnv
              else setup.APIKey c
  | None => getenv setup.apiKeyEnv
  end.

(** The names under which [knownCaps] has an entry. *)
Definition known_models : list string :=
  [ setup.ModelClaude3_5Haiku20241022; setup.ModelClaude3_5Sonnet20241022;
    setup.ModelClaude_3_Haiku_20240307; setup.ModelClaude_3_Sonnet_20240229;
    setup.ModelClaude_3_Opus_20240229 ].

(** What [DefineModel] does once the capabilities are settled: the one
    call of the registry, and the name registered as its result. *)
Definition registering {Registry : Type}
    (register : setup.Registration -> Registry -> option Registry)
    (reg : Registry) (name : string) (caps : setup.ModelCapabilities)
    : Registry * setup.Outcome string :=
  match register (registration_of (name, caps)) reg with
  | Some reg' => (reg', setup.Done name)
  | None => (reg, setup.RegistryPanic)
  end.

(** Capabilities other than the multimodal ones. *)
Definition text_only : setup.ModelCapabilities :=
  {| setup.Multiturn := true; setup.Tools := false;
     setup.SystemRole := true; setup.Media := false |}.

(** A tool response whose URL has a payload broken into two lines, and
    one whose URL has a media-type parameter. *)
Definition two_line_url : string :=
  "data:text/plain;base64,QUJD" +:+ String regexp.newline "REVG".

Definition two_line_response : ai.ToolResponse :=
  {| ai.ToolResponse_Name := "read";
     ai.ToolResponse_Output := Some {[ "url" := VString two_line_url ]} |}.

Definition charset_response : ai.ToolResponse :=
  {| ai.ToolResponse_Name := "read";
     ai.ToolResponse_Output :=
       Some {[ "url" := VString "data:text/plain;charset=utf-8;base64,SGk=" ]} |}.

(** A part of a kind the [ai] package has no constant for, and a message
    that holds a data part and then that part. *)
Definition custom_part : ai.Part :=
  {| ai.Kind := 7; ai.ContentType := EmptyString; ai.Text := EmptyString;
     ai.ToolRequest_ := None; ai.ToolResponse_ := None |}.

Definition data_then_custom : list ai.Message :=
  [ {| ai.Content := [data_part; custom_part]; ai.Role_ := ai.RoleUser |} ].

(** The request before the configuration blocks of [convertRequest]; the
    message and system lists are the ones [convertMessages] returns. *)
Definition base_params (model : string) (tools : list anthropic.ToolParam)
    : anthropic.MessageNewParams :=
  {| anthropic.System := F [];
     anthropic.Model := F model;
     anthropic.Messages := F [];
     anthropic.Tools := F tools;
     anthropic.MaxTokens := Absent; anthropic.Metadata := Absent;
     anthropic.StopSequences := Absent; anthropic.Temperature := Absent;
     anthropic.ToolChoice := Absent; anthropic.TopK := Absent;
     anthropic.TopP := Absent |}.

(** The two configuration blocks of [convertRequest] in the order of the
    code, each run when its type assertion succeeded: [common] and
    [specific] are the outcomes of the two assertions. *)
Definition with_configs (common : option ai.GenerationCommonConfig)
    (specific : option GenerationAnthropicConfig) (params : anthropic.MessageNewParams)
    : anthropic.MessageNewParams :=
  let params :=
    match common with
    | Some c => setCommonConfig c params
    | None => params
    end in
  match specific with
  | Some c => setAnthropicConfig c params
  | None => params
  end.

(* ===================================================================== *)
(** * Strings *)
(* ===================================================================== *)

Section Strings.

Lemma app_empty_r (s : string) : s +:+ EmptyString = s.
Proof. induction s as [|a s IH]; simpl; [reflexivity | now rewrite IH]. Qed.

Lemma app_assoc_str (a b c : string) : (a +:+ b) +:+ c = a +:+ (b +:+ c).
Proof. induction a as [|x a IH]; simpl; [reflexivity | now rewrite IH]. Qed.

Lemma length_app_str (a b : string) :
  String.length (a +:+ b) = (String.length a + String.length b)%nat.
Proof. induction a as [|x a IH]; simpl; [reflexivity | now rewrite IH]. Qed.

Lemma substring_prefix (a b : string) :
  String.substring 0 (String.length a) (a +:+ b) = a.
Proof.
  induction a as [|x a IH]; simpl.
  - now destruct b.
  - now rewrite IH.
Qed.

Lemma substring_skip (a b : string) (n : nat) :
  String.substring (String.length a) n (a +:+ b) = String.substring 0 n b.
Proof. induction a as [|x a IH]; simpl; [reflexivity | exact IH]. Qed.

(** The text between two offsets of a string cut in three. *)
Lemma substring_middle (a b c : string) :
  String.substring (String.length a) (String.length b) (a +:+ b +:+ c) = b.
Proof. rewrite substring_skip. apply substring_prefix. Qed.

Lemma occurs_app (c : ascii) (a b : string) :
  occurs c (a +:+ b) = occurs c a || occurs c b.
Proof.
  induction a as [|x a IH]; simpl; [reflexivity|].
  rewrite IH. now rewrite orb_assoc.
Qed.

End Strings.

(* ===================================================================== *)
(** * The matcher on the data-URL pattern *)
(* ===================================================================== *)

Section Matcher.
Import regexp.

Lemma strip_prefix_app (p s : string) : strip_prefix p (p +:+ s) = Some s.
Proof.
  induction p as [|a p IH]; simpl; [reflexivity|].
  now rewrite Ascii.eqb_refl.
Qed.

Lemma strip_prefix_Some (p s s' : string) :
  strip_prefix p s = Some s' -> s = p +:+ s'.
Proof.
  revert s. induction p as [|a p IH]; intros s H; simpl in *.
  - now inversion H.
  - destruct s as [|b s]; [discriminate|].
    destruct (Ascii.eqb_spec a b) as [->|]; [|discriminate].
    now rewrite (IH _ H).
Qed.

Lemma run_app (cc : CharClass) (s : string) : (run cc s).1 +:+ (run cc s).2 = s.
Proof.
  induction s as [|a s IH]; simpl; [reflexivity|].
  destruct (accepts cc a); simpl; [now rewrite IH | reflexivity].
Qed.

Lemma run_stops (cc : CharClass) (s : string) : stops cc (run cc s).2.
Proof.
  induction s as [|a s IH]; simpl; [exact I|].
  destruct (accepts cc a) eqn:E; simpl; [exact IH | exact E].
Qed.

Lemma run_all_accepted (cc : CharClass) (s : string) :
  all_accepted cc (run cc s).1 = true.
Proof.
  induction s as [|a s IH]; simpl; [reflexivity|].
  destruct (accepts cc a) eqn:E; simpl; [now rewrite E, IH | reflexivity].
Qed.

(** A run is determined by any cut into accepted characters followed by
    a text that stops the run. *)
Lemma run_unique (cc : CharClass) (r rest : string) :
  all_accepted cc r = true -> stops cc rest -> run cc (r +:+ rest) = (r, rest).
Proof.
  intros Hr Hs. induction r as [|a r IH]; simpl in *.
  - destruct rest as [|b rest]; simpl in *; [reflexivity | now rewrite Hs].
  - apply andb_prop in Hr as [Ha Hr]. rewrite Ha, (IH Hr). reflexivity.
Qed.

Lemma all_accepted_not (c : ascii) (s : string) :
  all_accepted (CcNot c) s = negb (occurs c s).
Proof.
  induction s as [|a s IH]; simpl; [reflexivity|].
  rewrite IH. now rewrite negb_orb.
Qed.

Lemma all_accepted_dot (s : string) :
  all_accepted CcAnyCharNotNL s = negb (occurs newline s).
Proof.
  induction s as [|a s IH]; simpl; [reflexivity|].
  rewrite IH. now rewrite negb_orb.
Qed.

(** The greedy [x+] before a continuation that cannot start on an
    accepted character: the whole run is taken, and giving characters
    back never helps. *)
Lemma plus_greedy_run (cc : CharClass) (k : nat -> string -> Caps -> option Caps) :
  (forall pos a s caps, accepts cc a = true -> k pos (String a s) caps = None) ->
  forall s pos caps,
    plus_greedy cc pos s caps k =
      match (run cc s).1 with
      | EmptyString => None
      | String _ _ => k (pos + String.length (run cc s).1)%nat (run cc s).2 caps
      end.
Proof.
  intros Hk s. induction s as [|a s IH]; intros pos caps; simpl; [reflexivity|].
  destruct (accepts cc a) eqn:Ea; simpl; [|reflexivity].
  rewrite IH.
  destruct (run cc s).1 as [|b r] eqn:Er.
  - pose proof (run_app cc s) as Happ. rewrite Er in Happ. simpl in Happ.
    rewrite Happ. f_equal. simpl. lia.
  - replace (S pos + String.length (String b r))%nat
      with (pos + S (String.length (String b r)))%nat by (simpl; lia).
    destruct (k _ (run cc s).2 caps) eqn:Ek; [reflexivity|].
    pose proof (run_app cc s) as Happ. rewrite Er in Happ. simpl in Happ.
    rewrite <- Happ. apply Hk.
    pose proof (run_all_accepted cc s) as Hall. rewrite Er in Hall. simpl in Hall.
    now apply andb_prop in Hall as [? _].
Qed.

End Matcher.

Section DataURL.
Import regexp.
#[local] Arguments strip_prefix : simpl never.
#[local] Arguments plus_greedy : simpl never.

Lemma search_anchored (s : string) (pos : nat) :
  search dataURLPattern (S pos) s = None.
Proof.
  revert pos. induction s as [|a s IH]; intros pos; simpl; [reflexivity | apply IH].
Qed.

Lemma match_at_unfold (url : string) :
  match_at dataURLPattern 0 url =
    match strip_prefix "data:" url with
    | None => None
    | Some s1 =>
        plus_greedy (CcNot ";") 5 s1 ∅
          (fun pos' s' caps' => after_media_type pos' s' (<[1%nat := (5%nat, pos')]> caps'))
    end.
Proof. reflexivity. Qed.

Lemma after_media_type_stuck pos a s caps :
  accepts (CcNot ";") a = true -> after_media_type pos (String a s) caps = None.
Proof.
  unfold after_media_type. simpl. intros H.
  change (strip_prefix ";base64," (String a s))
    with (if Ascii.eqb ";" a then strip_prefix "base64," s else None).
  rewrite Ascii.eqb_sym. now destruct (Ascii.eqb a ";").
Qed.

Lemma after_payload_stuck pos a s caps :
  after_payload pos (String a s) caps = None.
Proof. reflexivity. Qed.

Lemma match_at_data_url (url : string) :
  match_at dataURLPattern 0 url =
    match split_data_url url with
    | Some (payload, mediaType) => Some (data_url_caps mediaType payload)
    | None => None
    end.
Proof.
  rewrite match_at_unfold. unfold split_data_url.
  destruct (strip_prefix "data:" url) as [s1|]; [|reflexivity].
  rewrite plus_greedy_run by (intros; now apply after_media_type_stuck).
  destruct (run (CcNot ";") s1) as [m s2]. simpl fst; simpl snd.
  destruct m as [|c m]; [reflexivity|].
  unfold after_media_type.
  destruct (strip_prefix ";base64," s2) as [s3|]; [|reflexivity].
  rewrite plus_greedy_run by (intros; apply after_payload_stuck).
  destruct (run CcAnyCharNotNL s3) as [p s4]. simpl fst; simpl snd.
  destruct p as [|d p]; [reflexivity|].
  destruct s4; reflexivity.
Qed.

Lemma search_unfold (r : Regexp) (pos : nat) (s : string) :
  search r pos s =
    match match_at r pos s with
    | Some caps => Some caps
    | None => match s with
              | EmptyString => None
              | String _ s' => search r (S pos) s'
              end
    end.
Proof. destruct s; reflexivity. Qed.

Lemma search_data_url (url : string) :
  search dataURLPattern 0 url = match_at dataURLPattern 0 url.
Proof.
  rewrite search_unfold.
  destruct (match_at dataURLPattern 0 url); [reflexivity|].
  destruct url; [reflexivity | apply search_anchored].
Qed.

Lemma split_data_url_sound (url mediaType payload : string) :
  split_data_url url = Some (payload, mediaType) -> is_data_url url mediaType payload.
Proof.
  unfold split_data_url, is_data_url.
  destruct (strip_prefix "data:" url) as [s1|] eqn:E1; [|discriminate].
  pose proof (run_app (CcNot ";") s1) as A1.
  pose proof (run_all_accepted (CcNot ";") s1) as B1.
  destruct (run (CcNot ";") s1) as [m s2]. simpl in A1, B1.
  destruct m as [|c m]; [discriminate|].
  destruct (strip_prefix ";base64," s2) as [s3|] eqn:E2; [|discriminate].
  pose proof (run_app CcAnyCharNotNL s3) as A2.
  pose proof (run_all_accepted CcAnyCharNotNL s3) as B2.
  destruct (run CcAnyCharNotNL s3) as [p s4]. simpl in A2, B2.
  destruct p as [|d p]; [discriminate|].
  destruct s4; [|discriminate].
  intros [= <- <-].
  apply strip_prefix_Some in E1, E2. subst url s2 s1.
  rewrite app_empty_r in A2. subst s3.
  rewrite all_accepted_not in B1. rewrite all_accepted_dot in B2.
  repeat split; try discriminate.
  - now destruct (occurs ";" (String c m)).
  - now destruct (occurs newline (String d p)).
Qed.

Lemma split_data_url_complete (url mediaType payload : string) :
  is_data_url url mediaType payload -> split_data_url url = Some (payload, mediaType).
Proof.
  intros (-> & Hm & Hsemi & Hp & Hnl). unfold split_data_url.
  rewrite strip_prefix_app.
  rewrite (run_unique (CcNot ";") mediaType (";base64," +:+ payload)).
  - destruct mediaType as [|c m]; [congruence|].
    rewrite strip_prefix_app.
    rewrite <- (app_empty_r payload) at 1.
    rewrite (run_unique CcAnyCharNotNL payload EmptyString).
    + destruct payload; [congruence | reflexivity].
    + rewrite all_accepted_dot, Hnl. reflexivity.
    + exact I.
  - rewrite all_accepted_not, Hsemi. reflexivity.
  - reflexivity.
Qed.

Lemma group_media_type (mediaType payload : string) :
  group_text ("data:" +:+ mediaType +:+ ";base64," +:+ payload)
             (data_url_caps mediaType payload) 1 = mediaType.
Proof.
  unfold group_text, data_url_caps, Caps. cbv zeta.
  rewrite lookup_insert_ne, lookup_insert_ne, lookup_insert_eq by discriminate.
  replace (5 + String.length mediaType - 5)%nat with (String.length mediaType) by lia.
  apply (substring_middle "data:" mediaType).
Qed.

Lemma group_payload (mediaType payload : string) :
  group_text ("data:" +:+ mediaType +:+ ";base64," +:+ payload)
             (data_url_caps mediaType payload) 2 = payload.
Proof.
  unfold group_text, data_url_caps, Caps. cbv zeta.
  rewrite lookup_insert_ne, lookup_insert_eq by discriminate.
  set (a := "data:" +:+ mediaType +:+ ";base64,").
  replace ("data:" +:+ mediaType +:+ ";base64," +:+ payload)
    with (a +:+ payload +:+ EmptyString).
  - replace (5 + String.length mediaType + 8)%nat with (String.length a).
    + replace (String.length a + String.length payload - String.length a)%nat
        with (String.length payload) by lia.
      apply substring_middle.
    + unfold a. rewrite !length_app_str. simpl. lia.
  - unfold a. rewrite app_empty_r. now rewrite !app_assoc_str.
Qed.

(** The extraction computes the reading [split_data_url] of its pattern. *)
Lemma extract_split (url : string) :
  extractDataFromBase64URL url =
    match split_data_url url with
    | Some pm => OK pm
    | None => Err ErrInvalidDataURL
    end.
Proof.
  unfold extractDataFromBase64URL, FindStringSubmatch.
  rewrite search_data_url, match_at_data_url.
  destruct (split_data_url url) as [[p m]|] eqn:E; [|reflexivity].
  apply split_data_url_sound in E as (-> & _).
  set (text := "data:" +:+ m +:+ ";base64," +:+ p).
  change (OK (group_text text (data_url_caps m p) 2, group_text text (data_url_caps m p) 1)
          = OK (p, m)).
  unfold text. now rewrite group_payload, group_media_type.
Qed.
End DataURL.

(* ===================================================================== *)
(** * Data-URL extraction: theorems *)
(* ===================================================================== *)

(** C4 (amended).  The extraction succeeds exactly on the strings
    [data:<media-type>;base64,<payload>] whose media type is one or more
    characters other than [;] and whose payload is one or more characters
    other than newline: on such a string it returns the pair
    (payload, media type), and on every string that has no such reading it
    fails with the malformed-data-URL error. *)
Theorem extractDataFromBase64URL_spec (url : string) :
  (forall mediaType payload,
      is_data_url url mediaType payload ->
      extractDataFromBase64URL url = OK (payload, mediaType))
  /\ ((forall mediaType payload, ~ is_data_url url mediaType payload) ->
      extractDataFromBase64URL url = Err ErrInvalidDataURL).
Proof.
  rewrite extract_split. split.
  - intros m p H. now rewrite (split_data_url_complete _ _ _ H).
  - intros H. destruct (split_data_url url) as [[p m]|] eqn:E; [|reflexivity].
    exfalso. exact (H m p (split_data_url_sound _ _ _ E)).
Qed.

Lemma extractDataFromBase64URL_spec_witness :
  is_data_url "data:image/png;base64,AAA=" "image/png" "AAA="
  /\ extractDataFromBase64URL "data:image/png;base64,AAA=" = OK ("AAA=", "image/png").
Proof.
  assert (H : is_data_url "data:image/png;base64,AAA=" "image/png" "AAA=")
    by (repeat split; discriminate).
  split; [exact H|].
  exact (proj1 (extractDataFromBase64URL_spec "data:image/png;base64,AAA=") _ _ H).
Defined.

(** C4, as first stated, fails: a payload that holds a newline (base64
    text broken into lines) follows [data:text/plain;base64,] and the
    media type has no [;], yet the extraction reports a malformed URL. *)
Lemma extractDataFromBase64URL_rejects_newline :
  "text/plain" <> EmptyString
  /\ occurs ";" "text/plain" = false
  /\ extractDataFromBase64URL
       ("data:" +:+ "text/plain" +:+ ";base64," +:+ "QUJD" +:+ String regexp.newline "REVG")
     = Err ErrInvalidDataURL.
Proof.
  split; [discriminate|]. split; [reflexivity|]. vm_compute. reflexivity.
Qed.

(** C10.  A string [data:<media-type>;base64,] with nothing after the
    comma is refused with the malformed-data-URL error: the payload group
    needs one character at least. *)
Theorem extractDataFromBase64URL_empty_payload (mediaType : string) :
  occurs ";" mediaType = false ->
  extractDataFromBase64URL ("data:" +:+ mediaType +:+ ";base64,") = Err ErrInvalidDataURL.
Proof.
  intros Hsemi. rewrite extract_split. unfold split_data_url.
  rewrite strip_prefix_app.
  rewrite (run_unique (regexp.CcNot ";") mediaType ";base64,").
  - destruct mediaType; reflexivity.
  - rewrite all_accepted_not, Hsemi. reflexivity.
  - reflexivity.
Qed.

Lemma extractDataFromBase64URL_empty_payload_witness :
  occurs ";" "image/png" = false
  /\ extractDataFromBase64URL "data:image/png;base64," = Err ErrInvalidDataURL.
Proof.
  split; [reflexivity|].
  exact (extractDataFromBase64URL_empty_payload "image/png" eq_refl).
Defined.

(* ===================================================================== *)
(** * Tool-response encoding: theorems *)
(* ===================================================================== *)

Section ToolResponse.

Lemma Sprintf_image (data mediaType : string) :
  fmt.Sprintf image_format [data; mediaType] = image_block data mediaType.
Proof.
  vm_compute. reflexivity.
Qed.

Lemma Sprintf_text (json : string) :
  fmt.Sprintf text_format [json] = text_block json.
Proof.
  vm_compute. reflexivity.
Qed.

(** The image branch, once the URL is a string the extraction accepts. *)
Lemma convertToolResponse_image_path (response : ai.ToolResponse)
    (url payload mediaType : string) :
  map_index (ai.ToolResponse_Output response) "url" = Some (VString url) ->
  extractDataFromBase64URL url = OK (payload, mediaType) ->
  convertToolResponse response =
    image_block payload
      (match map_index (ai.ToolResponse_Output response) "contentType" with
       | Some (VString override) => override
       | _ => mediaType
       end).
Proof.
  intros Hurl Hext. unfold convertToolResponse. cbv zeta.
  rewrite Hurl. cbn [assert_string]. rewrite Hext.
  rewrite Sprintf_image. f_equal.
  destruct (map_index _ "contentType") as [[]|]; reflexivity.
Qed.

(** The fallback branch. *)
Lemma convertToolResponse_text_path (response : ai.ToolResponse) :
  (forall url payload mediaType,
      map_index (ai.ToolResponse_Output response) "url" = Some (VString url) ->
      extractDataFromBase64URL url <> OK (payload, mediaType)) ->
  convertToolResponse response =
    match json.Marshal (ai.ToolResponse_Output response) with
    | Some json => text_block json
    | None => EmptyString
    end.
Proof.
  intros Hno. unfold convertToolResponse. cbv zeta.
  destruct (map_index _ "url") as [v|] eqn:Hurl.
  - destruct v; cbn [assert_string];
      try (destruct (json.Marshal _); [apply Sprintf_text | reflexivity]).
    destruct (extractDataFromBase64URL s) as [[p m]| |] eqn:Hext;
      try (destruct (json.Marshal _); [apply Sprintf_text | reflexivity]).
    exfalso. exact (Hno s p m eq_refl Hext).
  - cbn [assert_string]. destruct (json.Marshal _); [apply Sprintf_text | reflexivity].
Qed.

(** The image branch in terms of the form of the URL. *)
Lemma convertToolResponse_image_of_data_url (response : ai.ToolResponse)
    (url payload mediaType : string) :
  map_index (ai.ToolResponse_Output response) "url" = Some (VString url) ->
  is_data_url url mediaType payload ->
  map_index (ai.ToolResponse_Output response) "contentType" = None ->
  convertToolResponse response = image_block payload mediaType.
Proof.
  intros Hurl Hform Hct.
  rewrite (convertToolResponse_image_path response url payload mediaType Hurl).
  - now rewrite Hct.
  - rewrite extract_split. now rewrite (split_data_url_complete _ _ _ Hform).
Qed.

End ToolResponse.

(** The image branch by the form of the URL. *)
Lemma convertToolResponse_image_form (response : ai.ToolResponse)
    (url payload mediaType : string) :
  map_index (ai.ToolResponse_Output response) "url" = Some (VString url) ->
  is_data_url url mediaType payload ->
  convertToolResponse response =
    image_block payload
      (match map_index (ai.ToolResponse_Output response) "contentType" with
       | Some (VString override) => override
       | _ => mediaType
       end).
Proof.
  intros Hurl Hform. apply (convertToolResponse_image_path response url); [exact Hurl|].
  rewrite extract_split. now rewrite (split_data_url_complete _ _ _ Hform).
Qed.

(** C5, as first stated, fails: the URL
    [data:text/plain;base64,QUJD<newline>REVG] has the form
    [data:<media-type>;base64,<payload>] with a media type free of [;],
    yet the encoder returns the text block of the whole map, which is no
    image block. *)
Lemma convertToolResponse_two_line_url_is_text :
  map_index (ai.ToolResponse_Output two_line_response) "url" = Some (VString two_line_url)
  /\ two_line_url = "data:" +:+ "text/plain" +:+ ";base64,"
                    +:+ ("QUJD" +:+ String regexp.newline "REVG")
  /\ occurs ";" "text/plain" = false
  /\ convertToolResponse two_line_response
     = golit "{'type':'text','text':{'url':'data:text/plain;base64,QUJD\nREVG'}}"
  /\ forall data mediaType,
       convertToolResponse two_line_response <> image_block data mediaType.
Proof.
  split; [vm_compute; reflexivity|]. split; [reflexivity|]. split; [reflexivity|].
  split; [vm_compute; reflexivity|].
  intros data mediaType H. vm_compute in H. discriminate H.
Qed.

(** A URL with a media-type parameter goes the same way: the encoder
    returns the text block of the whole map. *)
Lemma convertToolResponse_charset_url_is_text :
  convertToolResponse charset_response
  = golit "{'type':'text','text':{'url':'data:text/plain;charset=utf-8;base64,SGk='}}".
Proof. vm_compute. reflexivity. Qed.

(** C5 (amended).  When the ["url"] entry of the output map is a string
    [data:<media-type>;base64,<payload>] whose media type is one or more
    characters other than [;] and whose payload is one or more characters
    other than newline, the encoder returns the image block
    [{"type":"image","source":{"type":"base64","data":<payload>,"media_type":<type>}}]
    whose media type is the ["contentType"] string of the map when there
    is one and the media type of the URL otherwise.  The map
    [{"url": "data:image/png;base64,AAA="}] gives media type [image/png];
    with ["contentType": "image/jpeg"] added it gives [image/jpeg]. *)
Theorem convertToolResponse_image :
  (forall (response : ai.ToolResponse) (url payload mediaType : string),
      map_index (ai.ToolResponse_Output response) "url" = Some (VString url) ->
      is_data_url url mediaType payload ->
      convertToolResponse response =
        image_block payload
          (match map_index (ai.ToolResponse_Output response) "contentType" with
           | Some (VString override) => override
           | _ => mediaType
           end))
  /\ convertToolResponse png_response =
       golit "{'type':'image','source':{'type':'base64','data':'AAA=','media_type':'image/png'}}"
  /\ convertToolResponse png_as_jpeg_response =
       golit "{'type':'image','source':{'type':'base64','data':'AAA=','media_type':'image/jpeg'}}".
Proof.
  split; [exact convertToolResponse_image_form|].
  split; vm_compute; reflexivity.
Qed.

Lemma convertToolResponse_image_witness :
  map_index (ai.ToolResponse_Output png_response) "url" = Some (VString png_url)
  /\ is_data_url png_url "image/png" "AAA="
  /\ convertToolResponse png_response = image_block "AAA=" "image/png".
Proof.
  assert (H1 : map_index (ai.ToolResponse_Output png_response) "url" = Some (VString png_url))
    by (vm_compute; reflexivity).
  assert (H2 : is_data_url png_url "image/png" "AAA=")
    by (repeat split; discriminate).
  split; [exact H1|]. split; [exact H2|].
  exact (proj1 convertToolResponse_image png_response png_url "AAA=" "image/png" H1 H2).
Defined.

(** C2, as first stated, fails: for [{"result": 42}] the encoder returns
    [{"type":"text","text":{"result":42}}], the serialized map standing
    as it is after ["text":], and not the text in which it is a quoted
    JSON string. *)
Lemma convertToolResponse_text_not_quoted :
  convertToolResponse result42 = golit "{'type':'text','text':{'result':42}}"
  /\ convertToolResponse result42 <> golit "{'type':'text','text':'{\'result\':42}'}".
Proof.
  split; [vm_compute; reflexivity|].
  vm_compute. discriminate.
Qed.

(** C2 (amended).  When the image branch is not taken (the map has no
    string under ["url"], or the extraction fails on it), the encoder
    serializes the whole map and returns [{"type":"text","text":<json>}]
    with the serialization [<json>] copied as it is; when the
    serialization fails it returns the empty string.  For [{"result": 42}]
    the result is [{"type":"text","text":{"result":42}}]. *)
Theorem convertToolResponse_text :
  (forall response : ai.ToolResponse,
      (forall url payload mediaType,
          map_index (ai.ToolResponse_Output response) "url" = Some (VString url) ->
          extractDataFromBase64URL url <> OK (payload, mediaType)) ->
      convertToolResponse response =
        match json.Marshal (ai.ToolResponse_Output response) with
        | Some json => golit "{'type':'text','text':" +:+ json +:+ "}"
        | None => EmptyString
        end)
  /\ json.Marshal (ai.ToolResponse_Output result42) = Some (golit "{'result':42}")
  /\ convertToolResponse result42 = golit "{'type':'text','text':{'result':42}}".
Proof.
  split; [exact convertToolResponse_text_path|].
  split; vm_compute; reflexivity.
Qed.

Lemma convertToolResponse_text_witness :
  (forall url payload mediaType,
      map_index (ai.ToolResponse_Output result42) "url" = Some (VString url) ->
      extractDataFromBase64URL url <> OK (payload, mediaType))
  /\ convertToolResponse result42 = text_block (golit "{'result':42}").
Proof.
  assert (H : forall url payload mediaType,
             map_index (ai.ToolResponse_Output result42) "url" = Some (VString url) ->
             extractDataFromBase64URL url <> OK (payload, mediaType)).
  { intros url p m Hurl. vm_compute in Hurl. discriminate Hurl. }
  split; [exact H|].
  exact (proj1 convertToolResponse_text result42 H).
Defined.

(* ===================================================================== *)
(** * Message conversion: theorems *)
(* ===================================================================== *)

Section Messages.

Lemma convertPart_text (text : string) :
  convertPart (ai.NewTextPart text) = OK (anthropic.NewTextBlock text).
Proof. reflexivity. Qed.

Lemma convertParts_text (texts : list string) content :
  exists content', convertParts (ai.NewTextPart <$> texts) content = OK content'.
Proof.
  revert content. induction texts as [|t texts IH]; intros content; simpl.
  - now exists content.
  - apply IH.
Qed.

(** The outer loop never changes its two accumulators. *)
Lemma convertMessagesLoop_OK messages system user r :
  convertMessagesLoop messages system user = OK r -> r = (system, user).
Proof.
  revert r. induction messages as [|msg messages IH]; intros r; simpl.
  - now intros [= <-].
  - destruct (convertParts (ai.Content msg) []); simpl; [apply IH | discriminate..].
Qed.

Lemma convertParts_supported parts content :
  Forall (fun part => supported (ai.Kind part) = true) parts ->
  forall kind, convertParts parts content <> Err (ErrUnsupportedPartKind kind).
Proof.
  intros H. revert content. induction H as [|part parts Hp _ IH]; intros content kind; simpl.
  - discriminate.
  - unfold convertPart, supported in *. cbv zeta.
    destruct (ai.Kind part =? ai.PartText); [apply IH|].
    destruct (ai.Kind part =? ai.PartMedia); [apply IH|].
    destruct (ai.Kind part =? ai.PartToolRequest).
    { destruct (ai.ToolRequest_ part); [apply IH | discriminate]. }
    destruct (ai.Kind part =? ai.PartToolResponse); [|discriminate Hp].
    destruct (ai.ToolResponse_ part); [apply IH | discriminate].
Qed.

Lemma convertPart_well_formed part :
  well_formed part -> supported (ai.Kind part) = true ->
  exists block, convertPart part = OK block.
Proof.
  intros [Hreq Hresp] Hs. unfold convertPart, supported in *. cbv zeta.
  destruct (ai.Kind part =? ai.PartText); [eauto|].
  destruct (ai.Kind part =? ai.PartMedia); [eauto|].
  destruct (Z.eqb_spec (ai.Kind part) ai.PartToolRequest) as [E|_].
  { destruct (Hreq E) as [req ->]. eauto. }
  destruct (Z.eqb_spec (ai.Kind part) ai.PartToolResponse) as [E|_]; [|discriminate Hs].
  destruct (Hresp E) as [resp ->]. eauto.
Qed.

Lemma convertPart_unsupported part :
  supported (ai.Kind part) = false ->
  convertPart part = Err (ErrUnsupportedPartKind (ai.Kind part)).
Proof.
  unfold convertPart, supported. cbv zeta.
  destruct (ai.Kind part =? ai.PartText); [discriminate|].
  destruct (ai.Kind part =? ai.PartMedia); [discriminate|].
  destruct (ai.Kind part =? ai.PartToolRequest); [discriminate|].
  destruct (ai.Kind part =? ai.PartToolResponse); [discriminate|reflexivity].
Qed.

(** The inner loop on well-formed parts: it stops at the first part of
    an unsupported kind, and completes when there is none. *)
Lemma convertParts_first parts content :
  Forall well_formed parts ->
  match first_unsupported parts with
  | Some part => convertParts parts content = Err (ErrUnsupportedPartKind (ai.Kind part))
  | None => exists content', convertParts parts content = OK content'
  end.
Proof.
  intros H. revert content. induction H as [|part parts Hwf _ IH]; intros content.
  - simpl. eauto.
  - unfold first_unsupported in *. simpl.
    destruct (supported (ai.Kind part)) eqn:Hs; simpl.
    + destruct (convertPart_well_formed part Hwf Hs) as [block ->]. simpl. apply IH.
    + now rewrite (convertPart_unsupported part Hs).
Qed.

Lemma first_unsupported_app parts1 parts2 :
  first_unsupported (parts1 ++ parts2) =
    match first_unsupported parts1 with
    | Some part => Some part
    | None => first_unsupported parts2
    end.
Proof.
  unfold first_unsupported. induction parts1 as [|p parts1 IH]; simpl; [reflexivity|].
  destruct (negb (supported (ai.Kind p))); [reflexivity | exact IH].
Qed.

Lemma convertMessagesLoop_first messages system user :
  Forall well_formed (all_parts messages) ->
  match first_unsupported (all_parts messages) with
  | Some part =>
      convertMessagesLoop messages system user = Err (ErrUnsupportedPartKind (ai.Kind part))
  | None => convertMessagesLoop messages system user = OK (system, user)
  end.
Proof.
  induction messages as [|msg messages IH]; intros H.
  - reflexivity.
  - unfold all_parts in *. cbn [mbind list_bind] in *.
    apply Forall_app in H as [H1 H2].
    rewrite first_unsupported_app. simpl.
    pose proof (convertParts_first (ai.Content msg) [] H1) as Hparts.
    destruct (first_unsupported (ai.Content msg)) as [part|].
    + now rewrite Hparts.
    + destruct Hparts as [content' ->]. simpl. apply IH, H2.
Qed.

Lemma first_unsupported_Some parts part :
  first_unsupported parts = Some part ->
  In part parts /\ supported (ai.Kind part) = false.
Proof.
  intros H. apply List.find_some in H as [Hin Hs]. split; [exact Hin|].
  now destruct (supported (ai.Kind part)).
Qed.

Lemma first_unsupported_Exists parts :
  Exists (fun part => supported (ai.Kind part) = false) parts ->
  is_Some (first_unsupported parts).
Proof.
  intros H. destruct (first_unsupported parts) as [part|] eqn:E; [eauto|].
  exfalso. apply Exists_exists in H as (part & Hin & Hs).
  apply list_elem_of_In in Hin.
  pose proof (List.find_none _ _ E part Hin) as Hn. simpl in Hn.
  rewrite Hs in Hn. discriminate.
Qed.

End Messages.

(** C1 (the code drops every message).  For every all-text conversation
    the converter returns an empty system-block list and an empty
    provider-message list: no converted message is appended to either, so
    the message count is not preserved.  For the one-message conversation
    [hello] the two lists together hold no message. *)
Theorem convertMessages_drops_every_message :
  (forall conversation : list (Role * list string),
      convertMessages (text_message <$> conversation) = OK ([], []))
  /\ convertMessages hello = OK ([], [])
  /\ length hello = 1%nat.
Proof.
  split; [|split; reflexivity].
  intros conversation. unfold convertMessages. cbv zeta.
  induction conversation as [|turn conversation IH]; [reflexivity|].
  cbn [fmap list_fmap convertMessagesLoop text_message ai.Content].
  destruct (convertParts_text turn.2 []) as [content' ->]. exact IH.
Qed.

(** C8, as first stated, fails twice.  [text_then_hollow] holds a part of
    kind data, which is unsupported, but a tool-request part without its
    request comes first and the converter panics on it.
    [data_then_custom] holds a part of kind 7, but the error names kind
    2, the kind of the unsupported part that comes first. *)
Lemma convertMessages_unsupported_kind_not_named :
  (In data_part (all_parts text_then_hollow)
   /\ supported (ai.Kind data_part) = false
   /\ convertMessages text_then_hollow = Panic)
  /\ (In custom_part (all_parts data_then_custom)
      /\ supported (ai.Kind custom_part) = false
      /\ convertMessages data_then_custom = Err (ErrUnsupportedPartKind 2)
      /\ ai.Kind custom_part <> 2).
Proof.
  split.
  - split; [simpl; auto|]. split; reflexivity.
  - split; [simpl; auto|]. split; [reflexivity|]. split; [reflexivity | discriminate].
Qed.

(** C8 (amended).  On a conversation in which every tool-request part
    carries its request and every tool-response part its response, if
    some part has a kind other than text, media, tool-request and
    tool-response, the converter fails with the unsupported-part-kind
    error naming the kind of the first such part; and on a conversation
    whose parts all have supported kinds it never reports that error. *)
Theorem convertMessages_unsupported_kind (messages : list ai.Message) :
  (Forall well_formed (all_parts messages) ->
   Exists (fun part => supported (ai.Kind part) = false) (all_parts messages) ->
   exists part,
     first_unsupported (all_parts messages) = Some part
     /\ In part (all_parts messages)
     /\ supported (ai.Kind part) = false
     /\ convertMessages messages = Err (ErrUnsupportedPartKind (ai.Kind part)))
  /\ (Forall (fun part => supported (ai.Kind part) = true) (all_parts messages) ->
      forall kind, convertMessages messages <> Err (ErrUnsupportedPartKind kind)).
Proof.
  split.
  - intros Hwf Hex.
    destruct (first_unsupported_Exists _ Hex) as [part Hfirst].
    exists part. destruct (first_unsupported_Some _ _ Hfirst) as [Hin Hs].
    repeat split; try assumption.
    pose proof (convertMessagesLoop_first messages [] [] Hwf) as H.
    now rewrite Hfirst in H.
  - intros Hall kind. unfold convertMessages. cbv zeta.
    generalize (@nil anthropic.TextBlockParam) (@nil anthropic.MessageParam).
    induction messages as [|msg messages IH]; intros system user; simpl.
    + discriminate.
    + unfold all_parts in Hall. cbn [mbind list_bind] in Hall.
      apply Forall_app in Hall as [H1 H2].
      pose proof (convertParts_supported (ai.Content msg) [] H1 kind) as Hparts.
      destruct (convertParts (ai.Content msg) []) as [content'|e|]; simpl.
      * apply IH, H2.
      * congruence.
      * discriminate.
Qed.

Lemma convertMessages_unsupported_kind_witness :
  Forall well_formed (all_parts text_then_data)
  /\ Exists (fun part => supported (ai.Kind part) = false) (all_parts text_then_data)
  /\ exists part,
       first_unsupported (all_parts text_then_data) = Some part
       /\ In part (all_parts text_then_data)
       /\ supported (ai.Kind part) = false
       /\ convertMessages text_then_data = Err (ErrUnsupportedPartKind (ai.Kind part)).
Proof.
  assert (Hwf : Forall well_formed (all_parts text_then_data)).
  { repeat constructor; discriminate. }
  assert (Hex : Exists (fun part => supported (ai.Kind part) = false) (all_parts text_then_data)).
  { apply Exists_cons_tl, Exists_cons_hd. reflexivity. }
  split; [exact Hwf|]. split; [exact Hex|].
  exact (proj1 (convertMessages_unsupported_kind text_then_data) Hwf Hex).
Defined.

(* ===================================================================== *)
(** * Request assembly: theorems *)
(* ===================================================================== *)

Section Requests.

Lemma convertParts_Err parts content e :
  convertParts parts content = Err e -> exists kind, e = ErrUnsupportedPartKind kind.
Proof.
  revert content. induction parts as [|part parts IH]; intros content; simpl.
  - discriminate.
  - destruct (convertPart part) as [block|e'|] eqn:E; simpl.
    + apply IH.
    + intros [= <-]. unfold convertPart in E. cbv zeta in E.
      repeat match type of E with
             | context [if ?b then _ else _] => destruct b
             | context [match ?o with Some _ => _ | None => _ end] => destruct o
             end; try discriminate.
      injection E as <-. eauto.
    + discriminate.
Qed.

(** The only error of the message converter is the unsupported part
    kind. *)
Lemma convertMessages_Err messages e :
  convertMessages messages = Err e -> exists kind, e = ErrUnsupportedPartKind kind.
Proof.
  unfold convertMessages. cbv zeta.
  generalize (@nil anthropic.TextBlockParam) (@nil anthropic.MessageParam).
  induction messages as [|msg messages IH]; intros system user; simpl.
  - discriminate.
  - destruct (convertParts (ai.Content msg) []) as [content'|e'|] eqn:E; simpl.
    + apply IH.
    + intros [= <-]. exact (convertParts_Err _ _ _ E).
    + discriminate.
Qed.

Lemma convertRequest_unfold model input :
  convertRequest model input =
    match Output input with
    | Some output =>
        if String.eqb (ai.Format output) ai.OutputFormatText then assemble model input
        else Err (ErrUnsupportedOutputFormat (ai.Format output) ai.OutputFormatText)
    | None => assemble model input
    end.
Proof.
  unfold convertRequest, assemble.
  destruct (Output input) as [output|]; [|reflexivity].
  destruct (String.eqb (ai.Format output) ai.OutputFormatText); reflexivity.
Qed.

Lemma assemble_Err model input e :
  assemble model input = Err e -> exists kind, e = ErrUnsupportedPartKind kind.
Proof.
  unfold assemble. simpl.
  destruct (convertMessages (Messages input)) as [[system messages]|e'|] eqn:E; simpl.
  - discriminate.
  - intros [= <-]. exact (convertMessages_Err _ _ E).
  - discriminate.
Qed.

End Requests.

(** C7.  A request whose output specification asks for a format other
    than plain text is refused with the unsupported-output-format error,
    whatever its messages, tools and configuration are. *)
Theorem convertRequest_rejects_other_formats (model : string) (input : GenerateRequest)
    (output : ai.GenerateRequestOutput) :
  Output input = Some output ->
  ai.Format output <> ai.OutputFormatText ->
  convertRequest model input =
    Err (ErrUnsupportedOutputFormat (ai.Format output) ai.OutputFormatText).
Proof.
  intros Hout Hfmt. rewrite convertRequest_unfold, Hout.
  apply String.eqb_neq in Hfmt. now rewrite Hfmt.
Qed.

Lemma convertRequest_rejects_other_formats_witness :
  Output (request_with ConfigNil (Some json_output) text_then_data) = Some json_output
  /\ ai.Format json_output <> ai.OutputFormatText
  /\ convertRequest "claude-3-haiku-20240307"
       (request_with ConfigNil (Some json_output) text_then_data)
     = Err (ErrUnsupportedOutputFormat "json" "text").
Proof.
  assert (Hfmt : ai.Format json_output <> ai.OutputFormatText) by discriminate.
  split; [reflexivity|]. split; [exact Hfmt|].
  exact (convertRequest_rejects_other_formats "claude-3-haiku-20240307"
           (request_with ConfigNil (Some json_output) text_then_data)
           json_output eq_refl Hfmt).
Defined.

(** C9.  A request without output specification never fails with the
    unsupported-output-format error: the format is looked at only when
    the specification is there. *)
Theorem convertRequest_nil_output (model : string) (input : GenerateRequest) :
  Output input = None ->
  forall format supported,
    convertRequest model input <> Err (ErrUnsupportedOutputFormat format supported).
Proof.
  intros Hout format sup H. rewrite convertRequest_unfold, Hout in H.
  apply assemble_Err in H as [kind H]. discriminate H.
Qed.

Lemma convertRequest_nil_output_witness :
  Output (request_with ConfigNil None text_then_data) = None
  /\ forall format supported,
       convertRequest "claude-3-haiku-20240307" (request_with ConfigNil None text_then_data)
       <> Err (ErrUnsupportedOutputFormat format supported).
Proof.
  split; [reflexivity|].
  exact (convertRequest_nil_output "claude-3-haiku-20240307"
           (request_with ConfigNil None text_then_data) eq_refl).
Defined.

(** The configuration of a request is one value: no request makes both
    type assertions of [convertRequest] succeed. *)
Lemma convertRequest_config_never_both :
  ~ exists (input : GenerateRequest) (common : ai.GenerationCommonConfig)
           (specific : GenerationAnthropicConfig),
      asCommonConfig (Config input) = Some common
      /\ asAnthropicConfig (Config input) = Some specific.
Proof.
  intros (input & common & specific & H1 & H2).
  destruct (Config input) as [|[c|]|[c|]|v]; discriminate.
Qed.

(** The generation parameters of the assembled request come from the
    one configuration value of the request.  From a plugin
    configuration: temperature, max tokens, top-k, top-p and stop
    sequences of its embedded common part, and its tool choice and
    metadata.  From a common configuration: the five common parameters,
    with tool choice and metadata left unset.  From anything else: all
    seven left unset. *)
Lemma convertRequest_config (model : string) (input : GenerateRequest)
    (params : anthropic.MessageNewParams) :
  convertRequest model input = OK params ->
  match Config input with
  | ConfigAnthropic (Some c) =>
      let common := GenerationCommonConfig_ c in
      anthropic.Temperature params = F (ai.Temperature common)
      /\ anthropic.ToolChoice params = F (ToolChoiceParam c)
      /\ anthropic.Metadata params = F (Metadata c)
      /\ anthropic.MaxTokens params = F (int64_of_int (ai.MaxOutputTokens common))
      /\ anthropic.TopK params = F (int64_of_int (ai.TopK common))
      /\ anthropic.TopP params = F (ai.TopP common)
      /\ anthropic.StopSequences params = F (ai.StopSequences common)
  | ConfigCommon (Some c) =>
      anthropic.Temperature params = F (ai.Temperature c)
      /\ anthropic.ToolChoice params = Absent
      /\ anthropic.Metadata params = Absent
      /\ anthropic.MaxTokens params = F (int64_of_int (ai.MaxOutputTokens c))
      /\ anthropic.TopK params = F (int64_of_int (ai.TopK c))
      /\ anthropic.TopP params = F (ai.TopP c)
      /\ anthropic.StopSequences params = F (ai.StopSequences c)
  | _ =>
      anthropic.Temperature params = Absent
      /\ anthropic.ToolChoice params = Absent
      /\ anthropic.Metadata params = Absent
      /\ anthropic.MaxTokens params = Absent
      /\ anthropic.TopK params = Absent
      /\ anthropic.TopP params = Absent
      /\ anthropic.StopSequences params = Absent
  end.
Proof.
  intros H. assert (Ha : assemble model input = OK params).
  { rewrite convertRequest_unfold in H. destruct (Output input) as [output|]; [|exact H].
    destruct (String.eqb (ai.Format output) ai.OutputFormatText); [exact H | discriminate]. }
  clear H. unfold assemble in Ha. simpl in Ha.
  destruct (convertMessages (Messages input)) as [[system messages]|e|]; simpl in Ha;
    try discriminate.
  injection Ha as <-.
  destruct (Config input) as [|[c|]|[c|]|v]; simpl; repeat split; reflexivity.
Qed.

Lemma convertRequest_config_example :
  exists params,
    convertRequest "claude-3-haiku-20240307"
      (request_with (ConfigAnthropic (Some specific_nine_tenths)) None hello) = OK params
    /\ anthropic.Temperature params = F 0x1.ccccccccccccdp-1%float
    /\ anthropic.ToolChoice params = F anthropic.ToolChoiceAny.
Proof.
  eexists. split; [reflexivity|].
  pose proof (convertRequest_config "claude-3-haiku-20240307"
                (request_with (ConfigAnthropic (Some specific_nine_tenths)) None hello)
                _ eq_refl) as H.
  split; [exact (proj1 H) | exact (proj1 (proj2 H))].
Defined.

(** The other configuration shape: a common configuration sets the five
    common parameters and leaves the tool choice unset. *)
Lemma convertRequest_common_config_example :
  exists params,
    convertRequest "claude-3-haiku-20240307"
      (request_with (ConfigCommon (Some common_half)) None hello) = OK params
    /\ anthropic.Temperature params = F 0.5%float
    /\ anthropic.ToolChoice params = Absent
    /\ anthropic.Metadata params = Absent.
Proof. eexists. repeat split. Qed.

(* ===================================================================== *)
(** * Response translation: theorems *)
(* ===================================================================== *)

Section Responses.

Lemma wrap_congr (z : Z) : exists q, wrap 64 z = z + q * 2 ^ 64.
Proof.
  unfold wrap. exists (- ((z + 2 ^ (64 - 1)) / 2 ^ 64)).
  rewrite Z.mod_eq by (now apply Z.pow_nonzero). lia.
Qed.

Lemma wrap_range (z : Z) : is_int64 (wrap 64 z).
Proof.
  unfold is_int64, wrap, int64_min, int64_max.
  pose proof (Z.mod_pos_bound (z + 2 ^ (64 - 1)) (2 ^ 64) ltac:(lia)). lia.
Qed.

Lemma wrap_id (z : Z) : is_int64 z -> wrap 64 z = z.
Proof.
  unfold is_int64, wrap, int64_min, int64_max. intros H.
  rewrite Z.mod_small by lia. lia.
Qed.

Lemma wrap_add (a b : Z) : wrap 64 (wrap 64 a + wrap 64 b) = wrap 64 (a + b).
Proof.
  destruct (wrap_congr a) as [qa Ha]. destruct (wrap_congr b) as [qb Hb].
  rewrite Ha, Hb. unfold wrap. f_equal.
  replace (a + qa * 2 ^ 64 + (b + qb * 2 ^ 64) + 2 ^ (64 - 1))
    with (a + b + 2 ^ (64 - 1) + (qa + qb) * 2 ^ 64) by lia.
  apply Z_mod_plus_full.
Qed.

Lemma foldl_snoc {A B} (f : A -> B) (l : list A) (acc : list B) :
  foldl (fun bs a => bs ++ [f a]) acc l = acc ++ (f <$> l).
Proof.
  revert acc. induction l as [|a l IH]; intros acc; simpl.
  - now rewrite app_nil_r.
  - rewrite IH. now rewrite <- app_assoc.
Qed.

Lemma translateCandidate_unknown c stopReason :
  stopReason <> anthropic.MessageStopReasonEndTurn ->
  stopReason <> anthropic.MessageStopReasonMaxTokens ->
  stopReason <> anthropic.MessageStopReasonStopSequence ->
  stopReason <> anthropic.MessageStopReasonToolUse ->
  ai.FinishReason_ (translateCandidate c stopReason) = ai.FinishReasonUnknown.
Proof.
  intros H1 H2 H3 H4. unfold translateCandidate. cbv zeta. cbn [ai.FinishReason_].
  apply String.eqb_neq in H1, H2, H3, H4. now rewrite H1, H2, H3, H4.
Qed.

End Responses.

(** C6, as first stated, fails in its last part: with 9223372036854775807
    input tokens and 1 output token the translated total is
    -9223372036854775808, which is not their sum. *)
Lemma translateResponse_total_overflows :
  Usage (translateResponse overflowing_response)
  = Some {| ai.InputTokens := 9223372036854775807;
            ai.OutputTokens := 1;
            ai.TotalTokens := -9223372036854775808 |}
  /\ -9223372036854775808 <> 9223372036854775807 + 1.
Proof. split; [vm_compute; reflexivity | lia]. Qed.

(** C6 (amended).  Every candidate of a translated response carries the
    finish reason that the response-level stop reason maps to: end-turn
    to Stop, max-tokens to Length, stop-sequence to Other, tool-use to
    Other, and any other value to Unknown.  The total token count of the
    translated usage is the 64-bit sum of its input and output token
    counts: it is their sum exactly whenever that sum fits in a signed
    64-bit integer, and the sum reduced modulo 2^64 otherwise. *)
Theorem translateResponse_finish_and_usage :
  (forall c,
      ai.FinishReason_ (translateCandidate c anthropic.MessageStopReasonEndTurn)
        = ai.FinishReasonStop
      /\ ai.FinishReason_ (translateCandidate c anthropic.MessageStopReasonMaxTokens)
        = ai.FinishReasonLength
      /\ ai.FinishReason_ (translateCandidate c anthropic.MessageStopReasonStopSequence)
        = ai.FinishReasonOther
      /\ ai.FinishReason_ (translateCandidate c anthropic.MessageStopReasonToolUse)
        = ai.FinishReasonOther)
  /\ (forall c stopReason,
        stopReason <> anthropic.MessageStopReasonEndTurn ->
        stopReason <> anthropic.MessageStopReasonMaxTokens ->
        stopReason <> anthropic.MessageStopReasonStopSequence ->
        stopReason <> anthropic.MessageStopReasonToolUse ->
        ai.FinishReason_ (translateCandidate c stopReason) = ai.FinishReasonUnknown)
  /\ (forall res,
        Candidates (translateResponse res)
        = (fun c => translateCandidate c (anthropic.StopReason res)) <$> anthropic.Content res)
  /\ (forall res, exists usage,
        Usage (translateResponse res) = Some usage
        /\ ai.TotalTokens usage = int_add (ai.InputTokens usage) (ai.OutputTokens usage))
  /\ (forall res,
        let input := anthropic.InputTokens (anthropic.Usage_ res) in
        let output := anthropic.OutputTokens (anthropic.Usage_ res) in
        is_int64 input -> is_int64 output -> is_int64 (input + output) ->
        Usage (translateResponse res)
        = Some {| ai.InputTokens := input; ai.OutputTokens := output;
                  ai.TotalTokens := input + output |}).
Proof.
  split; [intros c; repeat split|].
  split; [exact translateCandidate_unknown|].
  split; [intros res; unfold translateResponse; cbn [Candidates];
          exact (foldl_snoc (fun c => translateCandidate c (anthropic.StopReason res)) _ [])|].
  split.
  - intros res. eexists. split; [reflexivity|].
    cbn [ai.TotalTokens ai.InputTokens ai.OutputTokens].
    unfold int_of_int64, int64_add, int_add.
    rewrite wrap_add. apply wrap_id, wrap_range.
  - intros res input output Hi Ho Hs. unfold translateResponse. cbn [Usage].
    fold input output. unfold int_of_int64, int64_add.
    now rewrite (wrap_id input Hi), (wrap_id output Ho), !(wrap_id (input + output) Hs).
Qed.

Lemma translateResponse_finish_and_usage_witness :
  Candidates (translateResponse small_response)
  = [ translateCandidate {| anthropic.ContentBlock_Type := "text";
                            anthropic.ContentBlock_Text := "Hello" |}
        anthropic.MessageStopReasonMaxTokens ]
  /\ Usage (translateResponse small_response)
     = Some {| ai.InputTokens := 12; ai.OutputTokens := 30; ai.TotalTokens := 42 |}.
Proof.
  split.
  - exact (proj1 (proj2 (proj2 translateResponse_finish_and_usage)) small_response).
  - refine (proj2 (proj2 (proj2 (proj2 translateResponse_finish_and_usage)))
              small_response _ _ _); unfold is_int64, int64_min, int64_max; simpl; lia.
Defined.

(* ===================================================================== *)
(** * Further properties: tools and roles *)
(* ===================================================================== *)

Section Tools.

Lemma convertTools_map (tools : list ai.ToolDefinition) :
  convertTools tools = OK (tool_param <$> tools).
Proof. unfold convertTools. f_equal. exact (foldl_snoc tool_param tools []). Qed.

End Tools.

(** X1.  The tool conversion never fails and keeps count and order: the
    i-th tool parameter carries the name and the description of the i-th
    definition and its input schema as a raw value; converting two lists
    one after the other gives the conversion of their concatenation. *)
Theorem convertTools_pointwise (tools more : list ai.ToolDefinition) :
  exists params params',
    convertTools tools = OK params
    /\ convertTools more = OK params'
    /\ convertTools (tools ++ more) = OK (params ++ params')
    /\ length params = length tools
    /\ forall (i : nat) (t : ai.ToolDefinition),
         tools !! i = Some t ->
         params !! i =
           Some {| anthropic.ToolParam_Name := F (ai.ToolDefinition_Name t);
                   anthropic.ToolParam_InputSchema :=
                     Raw (VMap (ai.ToolDefinition_InputSchema t));
                   anthropic.ToolParam_Description := F (ai.ToolDefinition_Description t) |}.
Proof.
  exists (tool_param <$> tools), (tool_param <$> more).
  rewrite !convertTools_map. repeat split.
  - now rewrite fmap_app.
  - apply length_fmap.
  - intros i t Hi. rewrite list_lookup_fmap, Hi. reflexivity.
Qed.

(** X2.  The role conversion accepts exactly the roles user, system and
    model: user becomes the provider's user role, system and model both
    become its assistant role, and every other role (the tool role among
    them) is refused with the unsupported-role error naming it. *)
Theorem convertRole_table (role : Role) :
  (convertRole role = OK anthropic.MessageParamRoleUser <-> role = ai.RoleUser)
  /\ (convertRole role = OK anthropic.MessageParamRoleAssistant
      <-> role = ai.RoleSystem \/ role = ai.RoleModel)
  /\ (convertRole role = Err (ErrUnsupportedRole role)
      <-> role <> ai.RoleUser /\ role <> ai.RoleSystem /\ role <> ai.RoleModel)
  /\ convertRole ai.RoleTool = Err (ErrUnsupportedRole ai.RoleTool).
Proof.
  unfold convertRole.
  destruct (String.eqb_spec role ai.RoleUser) as [->|Hu].
  { repeat split; try reflexivity; try discriminate.
    - intros [H|H]; discriminate H.
    - intros (H & _). now contradict H. }
  destruct (String.eqb_spec role ai.RoleSystem) as [->|Hs].
  { repeat split; try reflexivity; try discriminate; auto.
    intros (_ & H & _). now contradict H. }
  destruct (String.eqb_spec role ai.RoleModel) as [->|Hm].
  { repeat split; try reflexivity; try discriminate; auto.
    intros (_ & _ & H). now contradict H. }
  repeat split; try reflexivity; try discriminate; try assumption.
  - intros H. now contradict Hu.
  - intros [H|H]; [now contradict Hs | now contradict Hm].
Qed.

(* ===================================================================== *)
(** * Further properties: the outcome of the conversions *)
(* ===================================================================== *)

Section Outcomes.

Lemma find_app_first {A} (f : A -> bool) (l1 l2 : list A) :
  List.find f (l1 ++ l2) =
    match List.find f l1 with
    | Some x => Some x
    | None => List.find f l2
    end.
Proof.
  induction l1 as [|a l1 IH]; simpl; [reflexivity|].
  destruct (f a); [reflexivity | exact IH].
Qed.

(** One turn of the inner loop, by the part it meets. *)
Lemma convertPart_outcome (part : ai.Part) :
  if offending part then
    convertPart part =
      if supported (ai.Kind part) then Panic else Err (ErrUnsupportedPartKind (ai.Kind part))
  else exists block, convertPart part = OK block.
Proof.
  unfold offending, missing_payload, supported, convertPart. cbv zeta.
  destruct (ai.Kind part =? ai.PartText) eqn:E1; simpl.
  { apply Z.eqb_eq in E1. rewrite E1. simpl. eauto. }
  destruct (ai.Kind part =? ai.PartMedia) eqn:E2; simpl.
  { apply Z.eqb_eq in E2. rewrite E2. simpl. eauto. }
  destruct (ai.Kind part =? ai.PartToolRequest) eqn:E3; simpl.
  { apply Z.eqb_eq in E3. rewrite E3. simpl.
    destruct (ai.ToolRequest_ part); simpl; eauto. }
  destruct (ai.Kind part =? ai.PartToolResponse) eqn:E4; simpl; [|reflexivity].
  destruct (ai.ToolResponse_ part); simpl; eauto.
Qed.

Lemma convertParts_outcome (parts : list ai.Part) content :
  match List.find offending parts with
  | Some part =>
      convertParts parts content =
        if supported (ai.Kind part) then Panic else Err (ErrUnsupportedPartKind (ai.Kind part))
  | None => exists content', convertParts parts content = OK content'
  end.
Proof.
  revert content. induction parts as [|part parts IH]; intros content; simpl.
  - eauto.
  - pose proof (convertPart_outcome part) as Hp.
    destruct (offending part).
    + rewrite Hp. now destruct (supported (ai.Kind part)).
    + destruct Hp as [block ->]. simpl. apply IH.
Qed.

Lemma convertMessagesLoop_outcome (messages : list ai.Message) system user :
  convertMessagesLoop messages system user =
    match List.find offending (all_parts messages) with
    | Some part =>
        if supported (ai.Kind part) then Panic else Err (ErrUnsupportedPartKind (ai.Kind part))
    | None => OK (system, user)
    end.
Proof.
  induction messages as [|msg messages IH]; [reflexivity|].
  unfold all_parts in *. cbn [mbind list_bind]. rewrite find_app_first. simpl.
  pose proof (convertParts_outcome (ai.Content msg) []) as Hp.
  destruct (List.find offending (ai.Content msg)) as [part|].
  - rewrite Hp. now destruct (supported (ai.Kind part)).
  - destruct Hp as [content' ->]. simpl. exact IH.
Qed.

Lemma convertMessages_outcome (messages : list ai.Message) :
  convertMessages messages =
    match List.find offending (all_parts messages) with
    | Some part =>
        if supported (ai.Kind part) then Panic else Err (ErrUnsupportedPartKind (ai.Kind part))
    | None => OK ([], [])
    end.
Proof. apply convertMessagesLoop_outcome. Qed.

Lemma assemble_outcome (model : string) (input : GenerateRequest) :
  assemble model input =
    match convertMessages (Messages input) with
    | OK _ => OK (configured model input (tool_param <$> Tools input))
    | Err e => Err e
    | Panic => Panic
    end.
Proof.
  unfold assemble.
  destruct (convertMessages (Messages input)) as [[system user]|e|] eqn:E;
    try reflexivity.
  apply convertMessagesLoop_OK in E. injection E as -> ->.
  cbn [mbind result_bind]. rewrite convertTools_map. reflexivity.
Qed.

Lemma format_accepted_dec (input : GenerateRequest) :
  {format_accepted input}
  + {exists output, Output input = Some output /\ ai.Format output <> ai.OutputFormatText}.
Proof.
  unfold format_accepted. destruct (Output input) as [output|]; [|now left].
  destruct (String.eqb_spec (ai.Format output) ai.OutputFormatText); [now left|].
  right. eauto.
Qed.

Lemma convertRequest_accepted (model : string) (input : GenerateRequest) :
  format_accepted input -> convertRequest model input = assemble model input.
Proof.
  unfold format_accepted. intros H. rewrite convertRequest_unfold.
  destruct (Output input) as [output|]; [|reflexivity].
  rewrite H. reflexivity.
Qed.

Lemma convertRequest_refused (model : string) (input : GenerateRequest) output :
  Output input = Some output -> ai.Format output <> ai.OutputFormatText ->
  convertRequest model input =
    Err (ErrUnsupportedOutputFormat (ai.Format output) ai.OutputFormatText).
Proof.
  intros Hout Hfmt. rewrite convertRequest_unfold, Hout.
  apply String.eqb_neq in Hfmt. now rewrite Hfmt.
Qed.

End Outcomes.

(** X3.  What the outcome of the message conversion tells.  When it
    returns lists, both are empty and no part of the conversation has an
    unsupported kind or is a tool part without its payload.  When it
    returns an error, the first such part has an unsupported kind and the
    error names that kind.  And when the first such part is a
    tool-request or tool-response part whose pointer is nil, the
    conversion panics. *)
Theorem convertMessages_first_offending (messages : list ai.Message) :
  (forall r, convertMessages messages = OK r ->
             r = ([], []) /\ List.find offending (all_parts messages) = None)
  /\ (forall e, convertMessages messages = Err e ->
        exists part,
          List.find offending (all_parts messages) = Some part
          /\ supported (ai.Kind part) = false
          /\ e = ErrUnsupportedPartKind (ai.Kind part))
  /\ (forall part,
        List.find offending (all_parts messages) = Some part ->
        supported (ai.Kind part) = true ->
        convertMessages messages = Panic).
Proof.
  rewrite convertMessages_outcome.
  destruct (List.find offending (all_parts messages)) as [part|].
  - destruct (supported (ai.Kind part)) eqn:Hs.
    + split; [discriminate|]. split; [discriminate|].
      intros part' [= <-] _. reflexivity.
    + split; [discriminate|]. split.
      * intros e [= <-]. eauto.
      * intros part' [= <-] Hs'. congruence.
  - split; [|split; discriminate].
    intros r [= <-]. split; reflexivity.
Qed.

Lemma convertMessages_first_offending_witness :
  List.find offending (all_parts text_then_hollow) = Some hollow_request
  /\ supported (ai.Kind hollow_request) = true
  /\ convertMessages text_then_hollow = Panic.
Proof.
  split; [reflexivity|]. split; [reflexivity|].
  exact (proj2 (proj2 (convertMessages_first_offending text_then_hollow))
           hollow_request eq_refl eq_refl).
Defined.

(** X4.  Converting a conversation in two pieces: the conversion of
    [before ++ after] ends as the conversion of [before] when that one
    fails or panics, and as the conversion of [after] otherwise. *)
Theorem convertMessages_app (before after : list ai.Message) :
  convertMessages (before ++ after) =
    match convertMessages before with
    | OK _ => convertMessages after
    | Err e => Err e
    | Panic => Panic
    end.
Proof.
  rewrite !convertMessages_outcome. unfold all_parts.
  rewrite bind_app, find_app_first.
  destruct (List.find offending (before ≫= ai.Content)) as [part|]; [|reflexivity].
  now destruct (supported (ai.Kind part)).
Qed.

(** X5.  The request assembly fails with the unsupported-output-format
    error exactly when the request has an output specification whose
    format is not plain text, and the error names that format; it fails
    with the unsupported-part-kind error exactly when the format is
    accepted and the first offending part of the conversation has an
    unsupported kind, and the error names that kind. *)
Theorem convertRequest_errors (model : string) (input : GenerateRequest) :
  (forall format supported_format,
      convertRequest model input = Err (ErrUnsupportedOutputFormat format supported_format)
      <-> exists output,
            Output input = Some output /\ ai.Format output = format
            /\ format <> ai.OutputFormatText /\ supported_format = ai.OutputFormatText)
  /\ (forall kind,
        convertRequest model input = Err (ErrUnsupportedPartKind kind)
        <-> format_accepted input
            /\ exists part,
                 List.find offending (all_parts (Messages input)) = Some part
                 /\ supported (ai.Kind part) = false /\ ai.Kind part = kind).
Proof.
  destruct (format_accepted_dec input) as [Hacc|(output & Hout & Hfmt)].
  - rewrite (convertRequest_accepted model input Hacc), assemble_outcome,
      convertMessages_outcome.
    split.
    + intros format sup. split.
      * destruct (List.find offending _) as [part|]; [|discriminate].
        destruct (supported (ai.Kind part)); discriminate.
      * intros (output & Hout & <- & Hne & _). unfold format_accepted in Hacc.
        rewrite Hout in Hacc. now contradict Hne.
    + intros kind. split.
      * destruct (List.find offending _) as [part|]; [|discriminate].
        destruct (supported (ai.Kind part)) eqn:Hs; [discriminate|].
        intros [= <-]. split; [exact Hacc|]. eauto.
      * intros (_ & part & -> & -> & <-). reflexivity.
  - rewrite (convertRequest_refused model input output Hout Hfmt). split.
    + intros format sup. split.
      * intros [= <- <-]. eauto.
      * intros (output' & Hout' & <- & _ & ->). congruence.
    + intros kind. split; [discriminate|].
      intros (Hacc & _). unfold format_accepted in Hacc. rewrite Hout in Hacc.
      now contradict Hfmt.
Qed.

(** X6.  What the outcome of the request assembly tells.  When it
    returns a request, the output format was accepted, no part of the
    conversation has an unsupported kind or is a tool part without its
    payload, and the request is the base request (model, converted
    tools, empty message and system lists) after the two configuration
    blocks.  And when the format is accepted and the first offending part
    is a tool part whose pointer is nil, the assembly panics. *)
Theorem convertRequest_returned_request (model : string) (input : GenerateRequest) :
  (forall params,
      convertRequest model input = OK params ->
      format_accepted input
      /\ List.find offending (all_parts (Messages input)) = None
      /\ params = with_configs (asCommonConfig (Config input))
                    (asAnthropicConfig (Config input))
                    (base_params model (tool_param <$> Tools input)))
  /\ (format_accepted input ->
      forall part,
        List.find offending (all_parts (Messages input)) = Some part ->
        supported (ai.Kind part) = true ->
        convertRequest model input = Panic).
Proof.
  destruct (format_accepted_dec input) as [Hacc|(output & Hout & Hfmt)].
  - rewrite (convertRequest_accepted model input Hacc), assemble_outcome,
      convertMessages_outcome.
    destruct (List.find offending _) as [part|].
    + destruct (supported (ai.Kind part)) eqn:Hs; split; try discriminate.
      * intros _ part' [= <-] _. reflexivity.
      * intros _ part' [= <-] Hs'. congruence.
    + split; [|discriminate]. intros params [= <-]. repeat split. exact Hacc.
  - rewrite (convertRequest_refused model input output Hout Hfmt).
    split; [discriminate|]. intros Hacc. exfalso.
    unfold format_accepted in Hacc. rewrite Hout in Hacc. contradiction.
Qed.

Lemma convertRequest_returned_request_witness :
  format_accepted (request_with ConfigNil (Some text_output) text_then_hollow)
  /\ List.find offending (all_parts text_then_hollow) = Some hollow_request
  /\ convertRequest "claude-3-haiku-20240307"
       (request_with ConfigNil (Some text_output) text_then_hollow) = Panic.
Proof.
  assert (Hacc : format_accepted (request_with ConfigNil (Some text_output) text_then_hollow))
    by reflexivity.
  split; [exact Hacc|]. split; [reflexivity|].
  exact (proj2 (convertRequest_returned_request "claude-3-haiku-20240307"
                  (request_with ConfigNil (Some text_output) text_then_hollow))
           Hacc hollow_request eq_refl eq_refl).
Defined.

(** X7.  Every request the assembly returns carries the model name it
    was given, one tool parameter per tool definition of the input in the
    same order, and an empty message list and an empty system list,
    whatever the conversation holds. *)
Theorem convertRequest_base_fields (model : string) (input : GenerateRequest)
    (params : anthropic.MessageNewParams) :
  convertRequest model input = OK params ->
  anthropic.Model params = F model
  /\ anthropic.Tools params = F (tool_param <$> Tools input)
  /\ anthropic.Messages params = F []
  /\ anthropic.System params = F [].
Proof.
  intros H.
  destruct (format_accepted_dec input) as [Hacc|(output & Hout & Hfmt)].
  - rewrite (convertRequest_accepted model input Hacc), assemble_outcome in H.
    destruct (convertMessages (Messages input)); try discriminate.
    injection H as <-. unfold configured. cbv zeta.
    destruct (asCommonConfig (Config input)), (asAnthropicConfig (Config input));
      repeat split.
  - rewrite (convertRequest_refused model input output Hout Hfmt) in H. discriminate.
Qed.

Lemma convertRequest_base_fields_witness :
  exists params,
    convertRequest "claude-3-opus-20240229"
      {| Config := ConfigCommon (Some common_half); Messages := hello;
         Output := Some text_output; Tools := [weather_tool] |} = OK params
    /\ anthropic.Model params = F "claude-3-opus-20240229"
    /\ anthropic.Tools params = F [tool_param weather_tool]
    /\ anthropic.Messages params = F []
    /\ anthropic.System params = F [].
Proof.
  eexists. split; [reflexivity|].
  exact (convertRequest_base_fields "claude-3-opus-20240229"
           {| Config := ConfigCommon (Some common_half); Messages := hello;
              Output := Some text_output; Tools := [weather_tool] |} _ eq_refl).
Defined.

(* ===================================================================== *)
(** * Further properties: data URLs and tool responses *)
(* ===================================================================== *)

Section MoreDataURL.

Lemma strip_prefix_None (p s : string) :
  (forall tail, s <> p +:+ tail) -> regexp.strip_prefix p s = None.
Proof.
  intros H. destruct (regexp.strip_prefix p s) as [tail|] eqn:E; [|reflexivity].
  exfalso. exact (H tail (strip_prefix_Some _ _ _ E)).
Qed.

Lemma image_block_not_empty (data mediaType : string) :
  image_block data mediaType <> EmptyString.
Proof. intros H. vm_compute in H. discriminate H. Qed.

Lemma text_block_not_empty (json : string) : text_block json <> EmptyString.
Proof. intros H. vm_compute in H. discriminate H. Qed.

End MoreDataURL.

(** X8.  Whatever the extraction returns can be put back together: when
    it returns the pair (payload, media type), the URL is [data:], the
    media type, [;base64,] and the payload, in that order and with nothing
    else; neither part is empty, the media type holds no [;] and the
    payload no newline. *)
Theorem extractDataFromBase64URL_reassembles (url payload mediaType : string) :
  extractDataFromBase64URL url = OK (payload, mediaType) ->
  url = "data:" +:+ mediaType +:+ ";base64," +:+ payload
  /\ mediaType <> EmptyString /\ occurs ";" mediaType = false
  /\ payload <> EmptyString /\ occurs regexp.newline payload = false.
Proof.
  rewrite extract_split.
  destruct (split_data_url url) as [[p m]|] eqn:E; [|discriminate].
  intros [= <- <-]. exact (split_data_url_sound _ _ _ E).
Qed.

Lemma extractDataFromBase64URL_reassembles_witness :
  extractDataFromBase64URL "data:image/gif;base64,R0lGODlh" = OK ("R0lGODlh", "image/gif")
  /\ "data:image/gif;base64,R0lGODlh" = "data:" +:+ "image/gif" +:+ ";base64," +:+ "R0lGODlh".
Proof.
  assert (H : extractDataFromBase64URL "data:image/gif;base64,R0lGODlh"
              = OK ("R0lGODlh", "image/gif")) by (vm_compute; reflexivity).
  split; [exact H|].
  exact (proj1 (extractDataFromBase64URL_reassembles _ _ _ H)).
Defined.

(** X9.  A data URL with media-type parameters is refused: when the text
    after the first [;] does not start with [base64,] (as in
    [data:text/plain;charset=utf-8;base64,...]), the extraction fails
    with the malformed-data-URL error. *)
Theorem extractDataFromBase64URL_rejects_parameters (mediaType rest : string) :
  occurs ";" mediaType = false ->
  (forall tail, rest <> "base64," +:+ tail) ->
  extractDataFromBase64URL ("data:" +:+ mediaType +:+ ";" +:+ rest) = Err ErrInvalidDataURL.
Proof.
  intros Hsemi Hrest. rewrite extract_split. unfold split_data_url.
  rewrite strip_prefix_app.
  rewrite (run_unique (regexp.CcNot ";") mediaType (";" +:+ rest)).
  - destruct mediaType; [reflexivity|].
    change (regexp.strip_prefix ";base64," (";" +:+ rest))
      with (regexp.strip_prefix "base64," rest).
    now rewrite (strip_prefix_None _ _ Hrest).
  - rewrite all_accepted_not, Hsemi. reflexivity.
  - reflexivity.
Qed.

Lemma extractDataFromBase64URL_rejects_parameters_witness :
  occurs ";" "text/plain" = false
  /\ (forall tail, "charset=utf-8;base64,SGk=" <> "base64," +:+ tail)
  /\ extractDataFromBase64URL "data:text/plain;charset=utf-8;base64,SGk="
     = Err ErrInvalidDataURL.
Proof.
  assert (H : forall tail, "charset=utf-8;base64,SGk=" <> "base64," +:+ tail)
    by (intros tail; discriminate).
  split; [reflexivity|]. split; [exact H|].
  exact (extractDataFromBase64URL_rejects_parameters "text/plain"
           "charset=utf-8;base64,SGk=" eq_refl H).
Defined.

(** X10.  The tool-response encoder returns the empty string in one
    case only: the image branch is not taken and the serialization of
    the output map fails.  In every other case it returns a non-empty
    block. *)
Theorem convertToolResponse_empty_iff (response : ai.ToolResponse) :
  convertToolResponse response = EmptyString
  <-> json.Marshal (ai.ToolResponse_Output response) = None
      /\ forall url payload mediaType,
           map_index (ai.ToolResponse_Output response) "url" = Some (VString url) ->
           extractDataFromBase64URL url <> OK (payload, mediaType).
Proof.
  split.
  - intros Hempty.
    assert (Hno : forall url payload mediaType,
               map_index (ai.ToolResponse_Output response) "url" = Some (VString url) ->
               extractDataFromBase64URL url <> OK (payload, mediaType)).
    { intros url p m Hurl Hext.
      rewrite (convertToolResponse_image_path response url p m Hurl Hext) in Hempty.
      exact (image_block_not_empty _ _ Hempty). }
    split; [|exact Hno].
    rewrite (convertToolResponse_text_path response Hno) in Hempty.
    destruct (json.Marshal _) as [json|]; [|reflexivity].
    exfalso. exact (text_block_not_empty _ Hempty).
  - intros [Hm Hno]. rewrite (convertToolResponse_text_path response Hno). now rewrite Hm.
Qed.

(* ===================================================================== *)
(** * Further properties: responses and invocation *)
(* ===================================================================== *)

(** X11.  The translated response has one candidate per content block,
    in the order of the blocks; the i-th candidate's message has the role
    model and exactly one part, the text part made of the i-th block's
    text, whatever the type of the block; the back-reference to the
    request is left unset. *)
Theorem translateResponse_candidates (res : anthropic.Message) :
  length (Candidates (translateResponse res)) = length (anthropic.Content res)
  /\ Request (translateResponse res) = None
  /\ forall (i : nat) (c : anthropic.ContentBlock),
       anthropic.Content res !! i = Some c ->
       exists candidate,
         Candidates (translateResponse res) !! i = Some candidate
         /\ ai.Role_ (ai.Message_ candidate) = ai.RoleModel
         /\ ai.Content (ai.Message_ candidate)
            = [ai.NewTextPart (anthropic.ContentBlock_Text c)].
Proof.
  assert (H : Candidates (translateResponse res)
              = (fun c => translateCandidate c (anthropic.StopReason res))
                  <$> anthropic.Content res).
  { unfold translateResponse. cbn [Candidates].
    exact (foldl_snoc (fun c => translateCandidate c (anthropic.StopReason res)) _ []). }
  rewrite H. split; [apply length_fmap|]. split; [reflexivity|].
  intros i c Hi. eexists. rewrite list_lookup_fmap, Hi. simpl. repeat split.
Qed.

(** X12.  An invocation calls the provider at most once, with the
    client it was given and the request the assembly returned; when the
    assembly fails, the provider is not called and the assembly's error
    is returned; without a client no call is made and no response is
    returned. *)
Theorem generate_calls (send : Client -> anthropic.MessageNewParams -> TransportOutcome)
    (client : option Client) (model : string) (input : GenerateRequest) :
  ((generate send client model input).1 = []
   \/ exists c req,
        client = Some c /\ convertRequest model input = OK req
        /\ (generate send client model input).1 = [(c, req)])
  /\ (forall e, convertRequest model input = Err e ->
        generate send client model input = ([], Failed (ConversionError e)))
  /\ (client = None ->
        (generate send client model input).1 = []
        /\ forall r, (generate send client model input).2 <> Returned r).
Proof.
  unfold generate. split; [|split].
  - destruct (convertRequest model input) as [req| |]; auto.
    destruct client as [c|]; auto.
    right. exists c, req. destruct (send c req); auto.
  - now intros e ->.
  - intros ->. destruct (convertRequest model input); split; auto; discriminate.
Qed.

(** X13.  An invocation returns a response exactly when the assembly
    succeeds, there is a client and the provider answers the request; the
    response then holds the candidates and the usage translated from that
    answer, and its back-reference is the input.  It returns a transport
    error exactly when the provider fails the request, and that error is
    the provider's. *)
Theorem generate_returns (send : Client -> anthropic.MessageNewParams -> TransportOutcome)
    (client : option Client) (model : string) (input : GenerateRequest) :
  (forall sent r,
      generate send client model input = (sent, Returned r)
      <-> exists c req res,
            client = Some c /\ convertRequest model input = OK req
            /\ send c req = Answer res /\ sent = [(c, req)]
            /\ r = {| Candidates := Candidates (translateResponse res);
                      Request := Some input;
                      Usage := Usage (translateResponse res) |})
  /\ (forall sent reason,
        generate send client model input = (sent, Failed (TransportError reason))
        <-> exists c req,
              client = Some c /\ convertRequest model input = OK req
              /\ send c req = Failure reason /\ sent = [(c, req)]).
Proof.
  unfold generate. split.
  - intros sent r. split.
    + destruct (convertRequest model input) as [req| |]; try discriminate.
      destruct client as [c|]; try discriminate.
      destruct (send c req) as [res|reason] eqn:E; try discriminate.
      intros [= <- <-]. exists c, req, res. auto.
    + intros (c & req & res & -> & -> & Hs & -> & ->). now rewrite Hs.
  - intros sent reason. split.
    + destruct (convertRequest model input) as [req| |]; try discriminate.
      destruct client as [c|]; try discriminate.
      destruct (send c req) as [res|reason'] eqn:E; try discriminate.
      intros [= <- <-]. exists c, req. auto.
    + intros (c & req & -> & -> & Hs & ->). now rewrite Hs.
Qed.

(** The invocation of a small conversation with a provider that answers,
    and with one that fails. *)
Lemma generate_examples :
  generate answering (Some some_client) "claude-3-haiku-20240307"
    (request_with ConfigNil None hello)
  = ([(some_client, configured "claude-3-haiku-20240307" (request_with ConfigNil None hello) [])],
     Returned {| Candidates := Candidates (translateResponse small_response);
                 Request := Some (request_with ConfigNil None hello);
                 Usage := Usage (translateResponse small_response) |})
  /\ (generate failing (Some some_client) "claude-3-haiku-20240307"
        (request_with ConfigNil None hello)).2
     = Failed (TransportError "503 Service Unavailable")
  /\ generate answering (Some some_client) "claude-3-haiku-20240307"
       (request_with ConfigNil None text_then_hollow)
     = ([], Panicked).
Proof. repeat split. Qed.

(* ===================================================================== *)
(** * Further properties: initialization and model registration *)
(* ===================================================================== *)

Section Setup.

Context {Registry : Type}.
Variable register : setup.Registration -> Registry -> option Registry.

Lemma Init_unfold (getenv : string -> string) order (st : setup.State) (reg : Registry) cfg :
  setup.Init register getenv order st reg cfg =
    if setup.initted st then (st, reg, setup.PluginPanic "anthropic.Init not called")
    else if String.eqb (chosen_key getenv cfg) EmptyString
         then (st, reg, setup.Refused (setup.ErrMissingAPIKey "ANTHROPIC_API_KEY"))
         else match setup.defineKnown register order reg with
              | (reg', true) => (ready (chosen_key getenv cfg), reg', setup.Done ())
              | (reg', false) => (ready (chosen_key getenv cfg), reg', setup.RegistryPanic)
              end.
Proof.
  unfold setup.Init, chosen_key, ready. cbv zeta.
  destruct (setup.initted st); [reflexivity|].
  destruct cfg as [c|]; reflexivity.
Qed.

Lemma defineModel_registration name caps (reg : Registry) :
  setup.defineModel register name caps reg = register (registration_of (name, caps)) reg.
Proof. reflexivity. Qed.

End Setup.

Section KnownModels.

Lemma knownCaps_list :
  map_to_list setup.knownCaps ≡ₚ
    [ (setup.ModelClaude3_5Haiku20241022, setup.Multimodal);
      (setup.ModelClaude3_5Sonnet20241022, setup.Multimodal);
      (setup.ModelClaude_3_Haiku_20240307, setup.Multimodal);
      (setup.ModelClaude_3_Sonnet_20240229, setup.Multimodal);
      (setup.ModelClaude_3_Opus_20240229, setup.Multimodal) ].
Proof.
  unfold setup.knownCaps. apply map_to_list_to_map.
  apply (bool_decide_unpack _). vm_compute. exact I.
Qed.

Lemma defineKnown_recording order (log : list setup.Registration) :
  setup.defineKnown recording order log = (log ++ (registration_of <$> order), true).
Proof.
  revert log. induction order as [|[name caps] order IH]; intros log; simpl.
  - now rewrite app_nil_r.
  - rewrite IH. now rewrite <- app_assoc.
Qed.

End KnownModels.

(** X14.  Initialization is refused exactly when the plugin is not yet
    initialized and neither the configuration nor the environment gives
    an API key; the error names the environment variable, and the state
    and the registry are left as they were (so the call can be made
    again). *)
Theorem Init_missing_key {Registry : Type}
    (register : setup.Registration -> Registry -> option Registry)
    (getenv : string -> string) (order : list (string * setup.ModelCapabilities))
    (st : setup.State) (reg : Registry) (cfg : option setup.Config) :
  (forall st' reg' e,
      setup.Init register getenv order st reg cfg = (st', reg', setup.Refused e) ->
      st' = st /\ reg' = reg /\ e = setup.ErrMissingAPIKey "ANTHROPIC_API_KEY"
      /\ setup.initted st = false /\ chosen_key getenv cfg = EmptyString)
  /\ (setup.initted st = false -> chosen_key getenv cfg = EmptyString ->
      setup.Init register getenv order st reg cfg
      = (st, reg, setup.Refused (setup.ErrMissingAPIKey "ANTHROPIC_API_KEY"))).
Proof.
  rewrite Init_unfold. split.
  - intros st' reg' e.
    destruct (setup.initted st); [discriminate|].
    destruct (String.eqb_spec (chosen_key getenv cfg) EmptyString) as [Hk|Hk].
    + intros [= <- <- <-]. auto.
    + destruct (setup.defineKnown register order reg) as [reg'' []]; discriminate.
  - intros -> ->. reflexivity.
Qed.

(** X15.  When the plugin is not yet initialized and a key is found, the
    key of the configuration is taken when it is not empty and the one of
    the environment otherwise; the state is marked initialized with a
    client for that key before the known models are registered, so it
    stays so even when a registration panics. *)
Theorem Init_sets_state {Registry : Type}
    (register : setup.Registration -> Registry -> option Registry)
    (getenv : string -> string) (order : list (string * setup.ModelCapabilities))
    (st : setup.State) (reg : Registry) (cfg : option setup.Config) :
  setup.initted st = false ->
  chosen_key getenv cfg <> EmptyString ->
  (forall c, cfg = Some c -> setup.APIKey c <> EmptyString ->
             chosen_key getenv cfg = setup.APIKey c)
  /\ exists reg' out,
       setup.Init register getenv order st reg cfg
       = ({| setup.initted := true;
             setup.client := Some {| ClientAPIKey := chosen_key getenv cfg |} |}, reg', out)
       /\ ((out = setup.Done () /\ setup.defineKnown register order reg = (reg', true))
           \/ (out = setup.RegistryPanic
               /\ setup.defineKnown register order reg = (reg', false))).
Proof.
  intros Hst Hkey. split.
  - intros c -> Hc. unfold chosen_key. apply String.eqb_neq in Hc. now rewrite Hc.
  - rewrite Init_unfold, Hst. apply String.eqb_neq in Hkey. rewrite Hkey.
    destruct (setup.defineKnown register order reg) as [reg' []]; eauto 10.
Qed.

Lemma Init_sets_state_witness :
  exists log out,
    setup.Init recording (env_key "sk-env") (map_to_list setup.knownCaps) fresh []
      (Some {| setup.APIKey := "sk-cfg" |})
    = ({| setup.initted := true; setup.client := Some {| ClientAPIKey := "sk-cfg" |} |},
       log, out)
    /\ (out = setup.Done () \/ out = setup.RegistryPanic).
Proof.
  destruct (proj2 (Init_sets_state recording (env_key "sk-env") (map_to_list setup.knownCaps)
                     fresh [] (Some {| setup.APIKey := "sk-cfg" |}) eq_refl
                     ltac:(discriminate)))
    as (log & out & H1 & H2).
  exists log, out. split; [exact H1|].
  destruct H2 as [[H2 _]|[H2 _]]; [left | right]; exact H2.
Defined.

(** X16.  Initialization happens once: after a call of [Init] that got
    past the key check (whether it returned or panicked in the registry),
    every further call panics with the message [anthropic.Init not
    called] and changes neither the state nor the registry, whatever
    configuration and environment it is given. *)
Theorem Init_only_once {Registry : Type}
    (register : setup.Registration -> Registry -> option Registry)
    (getenv getenv' : string -> string)
    (order order' : list (string * setup.ModelCapabilities))
    (st st' : setup.State) (reg reg' : Registry) (cfg cfg' : option setup.Config)
    (out : setup.Outcome unit) :
  setup.Init register getenv order st reg cfg = (st', reg', out) ->
  out = setup.Done () \/ out = setup.RegistryPanic ->
  setup.Init register getenv' order' st' reg' cfg'
  = (st', reg', setup.PluginPanic "anthropic.Init not called").
Proof.
  intros H Hout. rewrite Init_unfold in H.
  assert (Hin : setup.initted st' = true).
  { destruct (setup.initted st).
    - injection H as _ _ <-. destruct Hout; discriminate.
    - destruct (String.eqb (chosen_key getenv cfg) EmptyString).
      + injection H as _ _ <-. destruct Hout; discriminate.
      + destruct (setup.defineKnown register order reg) as [r []];
          injection H as <- _ _; reflexivity. }
  rewrite Init_unfold, Hin. reflexivity.
Qed.

Lemma Init_only_once_witness :
  exists st' log,
    setup.Init recording no_env (map_to_list setup.knownCaps) fresh []
      (Some {| setup.APIKey := "sk-cfg" |}) = (st', log, setup.Done ())
    /\ setup.Init recording (env_key "sk-other") [] st' log None
       = (st', log, setup.PluginPanic "anthropic.Init not called").
Proof.
  eexists. eexists. split.
  - rewrite Init_unfold, defineKnown_recording. reflexivity.
  - exact (Init_only_once recording no_env (env_key "sk-other")
             (map_to_list setup.knownCaps) [] fresh _ [] _
             (Some {| setup.APIKey := "sk-cfg" |}) None (setup.Done ())
             ltac:(rewrite Init_unfold, defineKnown_recording; reflexivity)
             (or_introl eq_refl)).
Defined.

Lemma Init_missing_key_witness :
  setup.initted fresh = false
  /\ chosen_key no_env (Some {| setup.APIKey := EmptyString |}) = EmptyString
  /\ setup.Init recording no_env (map_to_list setup.knownCaps) fresh []
       (Some {| setup.APIKey := EmptyString |})
     = (fresh, [], setup.Refused (setup.ErrMissingAPIKey "ANTHROPIC_API_KEY")).
Proof.
  split; [reflexivity|]. split; [reflexivity|].
  exact (proj2 (Init_missing_key recording no_env (map_to_list setup.knownCaps) fresh []
                  (Some {| setup.APIKey := EmptyString |})) eq_refl eq_refl).
Defined.

(** X17.  A first initialization with a key registers the five known
    Claude models and nothing else, whatever the order in which the map
    of known models is walked: each call names the provider [anthropic],
    carries the label [Anthropic - <name>] and the multimodal
    capabilities, and each known name is registered once. *)
Theorem Init_registers_known_models (getenv : string -> string)
    (order : list (string * setup.ModelCapabilities))
    (log : list setup.Registration) (cfg : option setup.Config) :
  order ≡ₚ map_to_list setup.knownCaps ->
  chosen_key getenv cfg <> EmptyString ->
  exists calls,
    setup.Init recording getenv order fresh log cfg
    = (ready (chosen_key getenv cfg), log ++ calls, setup.Done ())
    /\ setup.reg_name <$> calls ≡ₚ known_models
    /\ Forall (fun call =>
                 setup.reg_provider call = "anthropic"
                 /\ setup.reg_meta call
                    = {| setup.Label := "Anthropic - " +:+ setup.reg_name call;
                         setup.Supports :=
                           {| setup.Multiturn := true; setup.Tools := true;
                              setup.SystemRole := true; setup.Media := true |} |})
              calls.
Proof.
  intros Hperm Hkey. exists (registration_of <$> order).
  split; [|split].
  - rewrite Init_unfold. cbn [setup.initted fresh].
    apply String.eqb_neq in Hkey. rewrite Hkey. now rewrite defineKnown_recording.
  - rewrite <- list_fmap_compose, Hperm, knownCaps_list. reflexivity.
  - apply Forall_fmap. rewrite Hperm, knownCaps_list. repeat constructor.
Qed.

Lemma Init_registers_known_models_witness :
  exists calls,
    setup.Init recording (env_key "sk-env") (map_to_list setup.knownCaps) fresh [] None
    = (ready "sk-env", calls, setup.Done ())
    /\ setup.reg_name <$> calls ≡ₚ known_models.
Proof.
  destruct (Init_registers_known_models (env_key "sk-env") (map_to_list setup.knownCaps)
              [] None (reflexivity _) ltac:(discriminate))
    as (calls & H1 & H2 & _).
  exists calls. split; [exact H1 | exact H2].
Defined.

Section Define.

Lemma knownCaps_lookup (name : string) :
  setup.knownCaps !! name =
    if bool_decide (name ∈ known_models) then Some setup.Multimodal else None.
Proof.
  unfold setup.knownCaps. case_bool_decide as Hin.
  - apply elem_of_list_to_map.
    + apply (bool_decide_unpack _). vm_compute. exact I.
    + unfold known_models in Hin.
      repeat (apply elem_of_cons in Hin as [->|Hin]; [set_solver|]).
      now apply elem_of_nil in Hin.
  - apply not_elem_of_list_to_map. cbn [fmap list_fmap fst]. exact Hin.
Qed.

End Define.

(** X18.  Model definition: before initialization it panics with the
    message [anthropic.Init not called] and leaves the registry alone.
    After initialization, with capabilities given it makes one
    registration of the name with those capabilities and the label
    [Anthropic - <name>], for known and unknown names alike; with nil
    capabilities it registers a known model with the multimodal
    capabilities, and refuses any other name with the unknown-model
    error, leaving the registry alone. *)
Theorem DefineModel_cases {Registry : Type}
    (register : setup.Registration -> Registry -> option Registry)
    (st : setup.State) (reg : Registry) (name : string)
    (caps : option setup.ModelCapabilities) :
  (setup.initted st = false ->
   setup.DefineModel register st reg name caps
   = (reg, setup.PluginPanic "anthropic.Init not called"))
  /\ (setup.initted st = true ->
      setup.DefineModel register st reg name caps =
        match caps with
        | Some given => registering register reg name given
        | None =>
            if bool_decide (name ∈ known_models)
            then registering register reg name setup.Multimodal
            else (reg, setup.Refused (setup.ErrUnknownModel "anthropic" name))
        end).
Proof.
  unfold setup.DefineModel. split; intros ->; [reflexivity|].
  cbn [negb]. cbv zeta. destruct caps as [given|]; [reflexivity|].
  rewrite knownCaps_lookup. case_bool_decide; reflexivity.
Qed.

Lemma DefineModel_cases_witness :
  setup.initted (ready "sk-test") = true
  /\ setup.DefineModel recording (ready "sk-test") [] "claude-3-opus-20240229" (Some text_only)
     = ([registration_of ("claude-3-opus-20240229", text_only)],
        setup.Done "claude-3-opus-20240229")
  /\ setup.DefineModel recording (ready "sk-test") [] "claude-9" None
     = ([], setup.Refused (setup.ErrUnknownModel "anthropic" "claude-9")).
Proof.
  split; [reflexivity|]. split.
  - exact (proj2 (DefineModel_cases recording (ready "sk-test") []
                    "claude-3-opus-20240229" (Some text_only)) eq_refl).
  - exact (proj2 (DefineModel_cases recording (ready "sk-test") [] "claude-9" None) eq_refl).
Defined.

(** A registry that already holds one of the known names makes the
    registration loop panic; the plugin is left initialized, and a
    further [Init] is turned away. *)
Lemma Init_registry_panic_example :
  exists seen,
    setup.Init refusing_twice no_env (map_to_list setup.knownCaps) fresh
      ["claude-3-opus-20240229"] (Some {| setup.APIKey := "sk-cfg" |})
    = (ready "sk-cfg", seen, setup.RegistryPanic)
    /\ setup.Init refusing_twice no_env (map_to_list setup.knownCaps) (ready "sk-cfg")
         seen (Some {| setup.APIKey := "sk-cfg" |})
       = (ready "sk-cfg", seen, setup.PluginPanic "anthropic.Init not called").
Proof. eexists. split; vm_compute; reflexivity. Qed.

(* ===================================================================== *)
(** * Instances of the further properties *)
(* ===================================================================== *)

Lemma convertTools_pointwise_witness :
  exists params,
    convertTools [weather_tool] = OK params
    /\ params !! 0%nat
       = Some {| anthropic.ToolParam_Name := F "weather";
                 anthropic.ToolParam_InputSchema :=
                   Raw (VMap (Some {[ "type" := VString "object" ]}));
                 anthropic.ToolParam_Description := F "Looks up the weather" |}.
Proof.
  destruct (convertTools_pointwise [weather_tool] []) as (params & _ & H1 & _ & _ & _ & H2).
  exists params. split; [exact H1|]. exact (H2 0%nat weather_tool eq_refl).
Defined.

Lemma translateResponse_candidates_witness :
  exists candidate,
    Candidates (translateResponse small_response) !! 0%nat = Some candidate
    /\ ai.Role_ (ai.Message_ candidate) = "model"
    /\ ai.Content (ai.Message_ candidate) = [ai.NewTextPart "Hello"].
Proof.
  exact (proj2 (proj2 (translateResponse_candidates small_response)) 0%nat _ eq_refl).
Defined.

Lemma generate_calls_witness :
  convertRequest "claude-3-haiku-20240307" (request_with ConfigNil (Some json_output) hello)
  = Err (ErrUnsupportedOutputFormat "json" "text")
  /\ generate answering (Some some_client) "claude-3-haiku-20240307"
       (request_with ConfigNil (Some json_output) hello)
     = ([], Failed (ConversionError (ErrUnsupportedOutputFormat "json" "text"))).
Proof.
  split; [reflexivity|].
  exact (proj1 (proj2 (generate_calls answering (Some some_client) "claude-3-haiku-20240307"
                         (request_with ConfigNil (Some json_output) hello)))
           _ eq_refl).
Defined.

(* ===================================================================== *)
(** * The order of the configuration blocks *)
(* ===================================================================== *)

Section ConfigOrder.



End ConfigOrder.


